(** * audit-to-sarif: cargo-audit JSON to SARIF 2.1.0

    A shallow embedding of [scripts/audit-to-sarif.py] and the properties
    its specification states about it.

    The script works on the objects [json.load] returns: [None], [bool],
    [int], [float], [str], [list] and [dict] with string keys.  They are
    modelled twice:

    - as immutable trees ([value]), on which the four functions of the
      script are written as pure functions into an exception monad;
    - as objects in a store ([Heap]), where a [list] or a [dict] is a
      location, a dictionary display allocates, and [list.append] writes
      in place; this is the model in which sharing between the input and
      the output, and mutation, can be observed.

    The two are related by a simulation theorem. *)

From Stdlib Require Import ZArith String Ascii.
From Stdlib Require Import Floats.PrimFloat.
From stdpp Require Import base option list strings.

#[local] Open Scope string_scope.
#[local] Open Scope list_scope.
#[local] Set Warnings "-register-all,-inexact-float".

(** ** Python values, as trees *)

(** A [dict] keeps its keys in insertion order ([json.dump] writes them in
    that order), so it is an association list; [json.load] never produces a
    repeated key, and [assoc] reads the first binding of a key.  A [str] is
    the sequence of its bytes: the script passes strings on, joins them and
    lowercases them, and never looks at a single character. *)
Inductive value : Type :=
  | VNone
  | VBool (b : bool)
  | VInt (z : Z)
  | VFloat (f : float)
  | VStr (s : string)
  | VList (xs : list value)
  | VDict (kvs : list (string * value)).

(** The exceptions the script can meet. *)
Inductive exn : Type :=
  | AttributeError   (* [x.get] or [x.lower] on an object without it *)
  | TypeError        (* iterating or subscripting the wrong kind of object *)
  | KeyError
  | IndexError
  | OSError          (* [open] failed *)
  | ValueError.      (* [json.load], [json.dump] or [print] failed *)

Inductive result (A : Type) : Type :=
  | Ok (a : A)
  | Raise (e : exn).
Arguments Ok {A} a.
Arguments Raise {A} e.

#[export] Instance result_ret : MRet result := λ A a, Ok a.
#[export] Instance result_bind : MBind result := λ A B f m,
  match m with
  | Ok a => f a
  | Raise e => Raise e
  end.

(** *** Strings *)

Definition nl : string := String (ascii_of_nat 10) EmptyString.

(** [str.lower] on the ASCII letters.  Python's [str.lower] also rewrites
    letters outside ASCII, but a string it turns into one of the keys of
    [severity_map] is an ASCII string: the only characters outside ASCII
    whose lowercase form holds an ASCII letter are U+212A, which gives "k",
    a letter no key has, and U+0130, which gives "i" with a combining dot
    after it.  So the lookup in [convert_severity] is the same. *)
Definition lower_ascii (c : ascii) : ascii :=
  let n := N_of_ascii c in
  if ((65 <=? n) && (n <=? 90))%N then ascii_of_N (n + 32) else c.

Definition upper_ascii (c : ascii) : ascii :=
  let n := N_of_ascii c in
  if ((97 <=? n) && (n <=? 122))%N then ascii_of_N (n - 32) else c.

Fixpoint lower (s : string) : string :=
  match s with
  | EmptyString => EmptyString
  | String c s' => String (lower_ascii c) (lower s')
  end.

Fixpoint upper (s : string) : string :=
  match s with
  | EmptyString => EmptyString
  | String c s' => String (upper_ascii c) (upper s')
  end.

(** The characters of a string, each as a string of length one: what
    iterating over a [str] yields. *)
Fixpoint chars (s : string) : list string :=
  match s with
  | EmptyString => []
  | String c s' => String c EmptyString :: chars s'
  end.

(** [str(x)] for an object that is not a [str]: the interpreter's, not the
    script's.  An f-string field [{x}] is [x] itself when [x] is a [str]
    and [str(x)] otherwise. *)
Class PyStr := py_str : value → string.

Definition format_field `{PyStr} (x : value) : string :=
  match x with
  | VStr s => s
  | _ => py_str x
  end.

(** *** Dictionaries and lists *)

Fixpoint assoc {A} (k : string) (kvs : list (string * A)) : option A :=
  match kvs with
  | [] => None
  | (k', v) :: rest => if String.eqb k k' then Some v else assoc k rest
  end.

(** [d.get(k, dflt)]: only a [dict] has the method. *)
Definition dict_get (d : value) (k : string) (dflt : value) : result value :=
  match d with
  | VDict kvs => Ok (default dflt (assoc k kvs))
  | _ => Raise AttributeError
  end.

(** [s.lower()]: only a [str] has the method. *)
Definition str_lower (s : value) : result string :=
  match s with
  | VStr s => Ok (lower s)
  | _ => Raise AttributeError
  end.

(** The objects a [for] loop draws from [x]: the items of a [list], the keys
    of a [dict], the characters of a [str]; nothing else that [json.load]
    returns is iterable. *)
Definition py_iter (x : value) : result (list value) :=
  match x with
  | VList xs => Ok xs
  | VDict kvs => Ok (map (λ kv, VStr kv.1) kvs)
  | VStr s => Ok (map VStr (chars s))
  | _ => Raise TypeError
  end.

(** A subscript: [x["k"]] or [x[i]] (the script only writes the index 0). *)
Inductive key : Type :=
  | KStr (s : string)
  | KIdx (i : nat).

Definition subscript (x : value) (k : key) : result value :=
  match x, k with
  | VDict kvs, KStr s =>
      match assoc s kvs with Some v => Ok v | None => Raise KeyError end
  | VDict _, KIdx _ => Raise KeyError
  | VList xs, KIdx i =>
      match xs !! i with Some v => Ok v | None => Raise IndexError end
  | VStr s, KIdx i =>
      match chars s !! i with Some c => Ok (VStr c) | None => Raise IndexError end
  | _, _ => Raise TypeError
  end.

Fixpoint get_path (x : value) (p : list key) : result value :=
  match p with
  | [] => Ok x
  | k :: p' => y ← subscript x k; get_path y p'
  end.

(** Replace the binding of [k], keeping its place. *)
Fixpoint assoc_set {A} (k : string) (v : A) (kvs : list (string * A))
  : list (string * A) :=
  match kvs with
  | [] => []
  | (k', v') :: rest =>
      if String.eqb k k' then (k', v) :: rest else (k', v') :: assoc_set k v rest
  end.

(** The tree [x] after the object reached by [p] has become [new]: what an
    update in place of that object looks like from [x]. *)
Fixpoint set_path (x : value) (p : list key) (new : value) : result value :=
  match p with
  | [] => Ok new
  | k :: p' =>
      y ← subscript x k;
      y' ← set_path y p' new;
      match x, k with
      | VDict kvs, KStr s => Ok (VDict (assoc_set s y' kvs))
      | VList xs, KIdx i => Ok (VList (<[i := y']> xs))
      | _, _ => Raise TypeError
      end
  end.

(** [doc<p>.append(arg)]: the receiver is evaluated before the argument, and
    only a [list] has the method. *)
Definition append_at (doc : value) (p : list key) (arg : result value)
  : result value :=
  target ← get_path doc p;
  match target with
  | VList xs => x ← arg; set_path doc p (VList (xs ++ [x]))
  | _ => Raise AttributeError
  end.

(** ** The script, on trees *)

Definition severity_map : list (string * string) :=
  [ ("critical", "error");
    ("high", "error");
    ("medium", "warning");
    ("low", "note");
    ("informational", "note") ].

Definition convert_severity (severity : value) : result value :=
  s ← str_lower severity;
  Ok (VStr (default "warning" (assoc s severity_map))).

Definition create_sarif_result (vuln : value) : result value :=
  advisory ← dict_get vuln "advisory" (VDict []);
  package ← dict_get vuln "package" (VDict []);
  rule_id ← dict_get advisory "id" (VStr "UNKNOWN");
  severity ← dict_get vuln "severity" (VStr "medium");
  level ← convert_severity severity;
  text ← dict_get advisory "description" (VStr "Unknown vulnerability");
  package_name ← dict_get package "name" (VStr "");
  package_version ← dict_get package "version" (VStr "");
  cvss ← dict_get vuln "cvss" (VDict []);
  score ← dict_get cvss "score" (VFloat 5.0);
  Ok (VDict
    [ ("ruleId", rule_id);
      ("level", level);
      ("message", VDict [ ("text", text) ]);
      ("locations", VList
        [ VDict
            [ ("physicalLocation", VDict
                [ ("artifactLocation", VDict [ ("uri", VStr "Cargo.toml") ]);
                  ("region", VDict
                    [ ("startLine", VInt 1); ("startColumn", VInt 1) ]) ]) ] ]);
      ("partialFingerprints", VDict
        [ ("packageName", package_name);
          ("packageVersion", package_version) ]);
      ("properties", VDict
        [ ("security-severity", score);
          ("tags", VList
            [ VStr "security"; VStr "dependency"; VStr "vulnerability" ]);
          ("precision", VStr "very-high") ]) ]).

Definition create_sarif_rule `{PyStr} (vuln : value) : result value :=
  advisory ← dict_get vuln "advisory" (VDict []);
  rule_id ← dict_get advisory "id" (VStr "UNKNOWN");
  name ← dict_get advisory "title" (VStr "Unknown vulnerability");
  short ← dict_get advisory "title" (VStr "Unknown vulnerability");
  full ← dict_get advisory "description" (VStr "");
  package ← dict_get vuln "package" (VDict []);
  package_name ← dict_get package "name" (VStr "package");
  heading ← dict_get advisory "title" (VStr "Vulnerability");
  body ← dict_get advisory "description" (VStr "");
  url ← dict_get advisory "url" (VStr "");
  cvss ← dict_get vuln "cvss" (VDict []);
  score ← dict_get cvss "score" (VFloat 5.0);
  Ok (VDict
    [ ("id", rule_id);
      ("name", name);
      ("shortDescription", VDict [ ("text", short) ]);
      ("fullDescription", VDict [ ("text", full) ]);
      ("help", VDict
        [ ("text", VStr
            ("Update " +:+ format_field package_name +:+ " to a patched version"));
          ("markdown", VStr
            ("## " +:+ format_field heading +:+ nl +:+ nl
             +:+ format_field body +:+ nl +:+ nl
             +:+ "### References" +:+ nl +:+ "- " +:+ format_field url)) ]);
      ("properties", VDict
        [ ("security-severity", score);
          ("tags", VList [ VStr "security"; VStr "vulnerability" ]) ]) ]).

(** The document of lines 80-95, with the two arrays given. *)
Definition sarif_document (rules results : list value) : value :=
  VDict
    [ ("$schema", VStr "https://json.schemastore.org/sarif-2.1.0.json");
      ("version", VStr "2.1.0");
      ("runs", VList
        [ VDict
            [ ("tool", VDict
                [ ("driver", VDict
                    [ ("name", VStr "cargo-audit");
                      ("version", VStr "0.18.0");
                      ("informationUri", VStr "https://github.com/RustSec/rustsec");
                      ("rules", VList rules) ]) ]);
              ("results", VList results);
              ("columnKind", VStr "utf16CodeUnits") ] ]) ].

(** [sarif["runs"][0]["tool"]["driver"]["rules"]] and
    [sarif["runs"][0]["results"]]. *)
Definition rules_path : list key :=
  [ KStr "runs"; KIdx 0; KStr "tool"; KStr "driver"; KStr "rules" ].
Definition results_path : list key :=
  [ KStr "runs"; KIdx 0; KStr "results" ].

(** The loop of lines 98-100. *)
Fixpoint for_each_vuln `{PyStr} (vulns : list value) (sarif : value)
  : result value :=
  match vulns with
  | [] => Ok sarif
  | vuln :: rest =>
      sarif1 ← append_at sarif rules_path (create_sarif_rule vuln);
      sarif2 ← append_at sarif1 results_path (create_sarif_result vuln);
      for_each_vuln rest sarif2
  end.

Definition convert_audit_to_sarif `{PyStr} (audit_data : value) : result value :=
  section ← dict_get audit_data "vulnerabilities" (VDict []);
  vulnerabilities ← dict_get section "list" (VList []);
  let sarif := sarif_document [] [] in
  vulns ← py_iter vulnerabilities;
  for_each_vuln vulns sarif.

(** ** Python objects, in a store *)

(** A location of the store. *)
Abbreviation loc := nat.

(** What a variable or a slot of a container holds: a constant, or a
    reference to a [list] or a [dict] in the store. *)
Inductive hval : Type :=
  | HNone
  | HBool (b : bool)
  | HInt (z : Z)
  | HFloat (f : float)
  | HStr (s : string)
  | HRef (l : loc).

(** A stored object. *)
Inductive cell : Type :=
  | CList (items : list hval)
  | CDict (entries : list (string * hval)).

(** The store: a new object takes the next location. *)
Abbreviation heap := (list cell).

(** A run ends with a value, with a Python exception, or [Stuck]: the model
    was asked to follow a reference that is not in the store, or a loop ran
    past its bound.  [Stuck] is no behaviour of the script. *)
Inductive outcome (A : Type) : Type :=
  | Done (a : A)
  | Raised (e : exn)
  | Stuck.
Arguments Done {A} a.
Arguments Raised {A} e.
Arguments Stuck {A}.

Definition M (A : Type) : Type := heap → outcome A * heap.

#[export] Instance M_ret : MRet M := λ A a h, (Done a, h).
#[export] Instance M_bind : MBind M := λ A B f m h,
  match m h with
  | (Done a, h') => f a h'
  | (Raised e, h') => (Raised e, h')
  | (Stuck, h') => (Stuck, h')
  end.

Definition raise {A} (e : exn) : M A := λ h, (Raised e, h).
Definition stuck {A} : M A := λ h, (Stuck, h).

Definition alloc (c : cell) : M hval := λ h, (Done (HRef (length h)), h ++ [c]).

Definition read (l : loc) : M cell := λ h,
  match h !! l with
  | Some c => (Done c, h)
  | None => (Stuck, h)
  end.

Definition write (l : loc) (c : cell) : M unit := λ h,
  if decide (l < length h) then (Done tt, <[l := c]> h) else (Stuck, h).

(** A partial view of a store: what is found at a location, if anything. *)
Definition store := loc → option cell.

(** The store [h] with the locations of [hidden] left out. *)
Definition visible (hidden : list loc) (h : heap) : store := λ l,
  if decide (l ∈ hidden) then None else h !! l.

(** The tree a stored object stands for. *)
Inductive repr (σ : store) : hval → value → Prop :=
  | repr_none : repr σ HNone VNone
  | repr_bool b : repr σ (HBool b) (VBool b)
  | repr_int z : repr σ (HInt z) (VInt z)
  | repr_float f : repr σ (HFloat f) (VFloat f)
  | repr_str s : repr σ (HStr s) (VStr s)
  | repr_list l items xs :
      σ l = Some (CList items) →
      repr_items σ items xs →
      repr σ (HRef l) (VList xs)
  | repr_dict l entries kvs :
      σ l = Some (CDict entries) →
      repr_entries σ entries kvs →
      repr σ (HRef l) (VDict kvs)
with repr_items (σ : store) : list hval → list value → Prop :=
  | repr_items_nil : repr_items σ [] []
  | repr_items_cons x v items xs :
      repr σ x v →
      repr_items σ items xs →
      repr_items σ (x :: items) (v :: xs)
with repr_entries (σ : store)
  : list (string * hval) → list (string * value) → Prop :=
  | repr_entries_nil : repr_entries σ [] []
  | repr_entries_cons k x v entries kvs :
      repr σ x v →
      repr_entries σ entries kvs →
      repr_entries σ ((k, x) :: entries) ((k, v) :: kvs).

Scheme repr_mut := Induction for repr Sort Prop
  with repr_items_mut := Induction for repr_items Sort Prop
  with repr_entries_mut := Induction for repr_entries Sort Prop.

(** The tree [x] stands for in the whole store [h]. *)
Definition represents (h : heap) (x : hval) (v : value) : Prop :=
  repr (visible [] h) x v.

(** The same, as a function: [fuel] bounds the depth of the tree. *)
Fixpoint reify (fuel : nat) (h : heap) (x : hval) : option value :=
  match fuel with
  | 0 => None
  | S fuel' =>
      match x with
      | HNone => Some VNone
      | HBool b => Some (VBool b)
      | HInt z => Some (VInt z)
      | HFloat f => Some (VFloat f)
      | HStr s => Some (VStr s)
      | HRef l =>
          match h !! l with
          | Some (CList items) => VList <$> mapM (reify fuel' h) items
          | Some (CDict entries) =>
              VDict <$> mapM (λ kv, pair kv.1 <$> reify fuel' h kv.2) entries
          | None => None
          end
      end
  end.

(** [str(x)] for a stored object that is not a [str]. *)
Class HeapStr := heap_str : heap → hval → string.

(** [str(x)] depends on the tree [x] stands for, not on where it is stored. *)
Class StrAgree `{PyStr} `{HeapStr} : Prop :=
  str_agree : ∀ h x v, represents h x v → heap_str h x = py_str v.

(** The operations and the script on the store, under the names they have on
    trees. *)
Module Heap.

Definition format_field `{HeapStr} (x : hval) : M string := λ h,
  match x with
  | HStr s => (Done s, h)
  | _ => (Done (heap_str h x), h)
  end.

(** [d.get(k, dflt)]: the method is looked up on [d], then the argument
    [dflt] is evaluated, then the call reads the dictionary. *)
Definition dict_get (d : hval) (k : string) (dflt : M hval) : M hval :=
  match d with
  | HRef l =>
      c ← read l;
      match c with
      | CDict _ =>
          dv ← dflt;
          c' ← read l;
          match c' with
          | CDict entries => mret (default dv (assoc k entries))
          | CList _ => stuck
          end
      | CList _ => raise AttributeError
      end
  | _ => raise AttributeError
  end.

Definition str_lower (s : hval) : M string :=
  match s with
  | HStr s => mret (lower s)
  | _ => raise AttributeError
  end.

Definition subscript (x : hval) (k : key) : M hval :=
  match x, k with
  | HRef l, _ =>
      c ← read l;
      match c, k with
      | CDict entries, KStr s =>
          match assoc s entries with Some v => mret v | None => raise KeyError end
      | CDict _, KIdx _ => raise KeyError
      | CList items, KIdx i =>
          match items !! i with Some v => mret v | None => raise IndexError end
      | CList _, KStr _ => raise TypeError
      end
  | HStr s, KIdx i =>
      match chars s !! i with Some c => mret (HStr c) | None => raise IndexError end
  | _, _ => raise TypeError
  end.

Fixpoint get_path (x : hval) (p : list key) : M hval :=
  match p with
  | [] => mret x
  | k :: p' => y ← subscript x k; get_path y p'
  end.

(** [target.append(arg)]: the method is looked up on [target], then [arg] is
    evaluated, then the list is extended in place. *)
Definition list_append (target : hval) (arg : M hval) : M unit :=
  match target with
  | HRef l =>
      c ← read l;
      match c with
      | CList _ =>
          x ← arg;
          c' ← read l;
          match c' with
          | CList items => write l (CList (items ++ [x]))
          | CDict _ => stuck
          end
      | CDict _ => raise AttributeError
      end
  | _ => raise AttributeError
  end.

(** The turns of a [for] loop over objects fixed when the loop starts (the
    keys of a [dict], the characters of a [str]). *)
Fixpoint for_each (xs : list hval) (body : hval → M unit) : M unit :=
  match xs with
  | [] => mret tt
  | x :: rest => body x;; for_each rest body
  end.

(** The turns of a [for] loop over the list at [l]: the list iterator reads
    the list again at every turn, at the next index, and stops when the index
    is past the end.  [bound] turns are allowed. *)
Fixpoint for_list (bound : nat) (l : loc) (i : nat) (body : hval → M unit)
  : M unit :=
  match bound with
  | 0 => stuck
  | S bound' =>
      c ← read l;
      match c with
      | CList items =>
          match items !! i with
          | Some x => body x;; for_list bound' l (S i) body
          | None => mret tt
          end
      | CDict _ => stuck
      end
  end.

(** [for x in xs: body]. *)
Definition for_in (xs : hval) (body : hval → M unit) : M unit :=
  match xs with
  | HRef l =>
      c ← read l;
      match c with
      | CList items => for_list (S (length items)) l 0 body
      | CDict entries => for_each (map (λ kv, HStr kv.1) entries) body
      end
  | HStr s => for_each (map HStr (chars s)) body
  | _ => raise TypeError
  end.

(** *** The script, on the store *)

Definition convert_severity (severity : hval) : M hval :=
  severity_map ← alloc (CDict (map (λ kv, (kv.1, HStr kv.2)) severity_map));
  s ← str_lower severity;
  dict_get severity_map s (mret (HStr "warning")).

Definition create_sarif_result (vuln : hval) : M hval :=
  advisory ← dict_get vuln "advisory" (alloc (CDict []));
  package ← dict_get vuln "package" (alloc (CDict []));
  rule_id ← dict_get advisory "id" (mret (HStr "UNKNOWN"));
  severity ← dict_get vuln "severity" (mret (HStr "medium"));
  level ← convert_severity severity;
  text ← dict_get advisory "description" (mret (HStr "Unknown vulnerability"));
  message ← alloc (CDict [ ("text", text) ]);
  artifact ← alloc (CDict [ ("uri", HStr "Cargo.toml") ]);
  region ← alloc (CDict [ ("startLine", HInt 1); ("startColumn", HInt 1) ]);
  physical ← alloc (CDict [ ("artifactLocation", artifact); ("region", region) ]);
  location ← alloc (CDict [ ("physicalLocation", physical) ]);
  locations ← alloc (CList [ location ]);
  package_name ← dict_get package "name" (mret (HStr ""));
  package_version ← dict_get package "version" (mret (HStr ""));
  fingerprints ← alloc (CDict
    [ ("packageName", package_name); ("packageVersion", package_version) ]);
  cvss ← dict_get vuln "cvss" (alloc (CDict []));
  score ← dict_get cvss "score" (mret (HFloat 5.0));
  tags ← alloc (CList [ HStr "security"; HStr "dependency"; HStr "vulnerability" ]);
  properties ← alloc (CDict
    [ ("security-severity", score);
      ("tags", tags);
      ("precision", HStr "very-high") ]);
  alloc (CDict
    [ ("ruleId", rule_id);
      ("level", level);
      ("message", message);
      ("locations", locations);
      ("partialFingerprints", fingerprints);
      ("properties", properties) ]).

Definition create_sarif_rule `{HeapStr} (vuln : hval) : M hval :=
  advisory ← dict_get vuln "advisory" (alloc (CDict []));
  rule_id ← dict_get advisory "id" (mret (HStr "UNKNOWN"));
  name ← dict_get advisory "title" (mret (HStr "Unknown vulnerability"));
  short ← dict_get advisory "title" (mret (HStr "Unknown vulnerability"));
  short_description ← alloc (CDict [ ("text", short) ]);
  full ← dict_get advisory "description" (mret (HStr ""));
  full_description ← alloc (CDict [ ("text", full) ]);
  package ← dict_get vuln "package" (alloc (CDict []));
  package_name ← dict_get package "name" (mret (HStr "package"));
  package_text ← format_field package_name;
  heading ← dict_get advisory "title" (mret (HStr "Vulnerability"));
  heading_text ← format_field heading;
  body ← dict_get advisory "description" (mret (HStr ""));
  body_text ← format_field body;
  url ← dict_get advisory "url" (mret (HStr ""));
  url_text ← format_field url;
  help ← alloc (CDict
    [ ("text", HStr ("Update " +:+ package_text +:+ " to a patched version"));
      ("markdown", HStr
        ("## " +:+ heading_text +:+ nl +:+ nl +:+ body_text +:+ nl +:+ nl
         +:+ "### References" +:+ nl +:+ "- " +:+ url_text)) ]);
  cvss ← dict_get vuln "cvss" (alloc (CDict []));
  score ← dict_get cvss "score" (mret (HFloat 5.0));
  tags ← alloc (CList [ HStr "security"; HStr "vulnerability" ]);
  properties ← alloc (CDict [ ("security-severity", score); ("tags", tags) ]);
  alloc (CDict
    [ ("id", rule_id);
      ("name", name);
      ("shortDescription", short_description);
      ("fullDescription", full_description);
      ("help", help);
      ("properties", properties) ]).

(** One turn of the loop of lines 98-100. *)
Definition loop_body `{HeapStr} (sarif vuln : hval) : M unit :=
  rules ← get_path sarif rules_path;
  list_append rules (create_sarif_rule vuln);;
  results ← get_path sarif results_path;
  list_append results (create_sarif_result vuln).

Definition convert_audit_to_sarif `{HeapStr} (audit_data : hval) : M hval :=
  section ← dict_get audit_data "vulnerabilities" (alloc (CDict []));
  vulnerabilities ← dict_get section "list" (alloc (CList []));
  rules ← alloc (CList []);
  driver ← alloc (CDict
    [ ("name", HStr "cargo-audit");
      ("version", HStr "0.18.0");
      ("informationUri", HStr "https://github.com/RustSec/rustsec");
      ("rules", rules) ]);
  tool ← alloc (CDict [ ("driver", driver) ]);
  results ← alloc (CList []);
  run ← alloc (CDict
    [ ("tool", tool);
      ("results", results);
      ("columnKind", HStr "utf16CodeUnits") ]);
  runs ← alloc (CList [ run ]);
  sarif ← alloc (CDict
    [ ("$schema", HStr "https://json.schemastore.org/sarif-2.1.0.json");
      ("version", HStr "2.1.0");
      ("runs", runs) ]);
  for_in vulnerabilities (loop_body sarif);;
  mret sarif.

End Heap.

(** ** The command line *)

(** [json.load] on the text of a file, [json.dump(_, indent=2)] to the text
    it writes, and the text of an exception: the library's, not the
    script's. *)
Class JsonLib := {
  json_load : string → result value;
  json_dump : value → result string;
  exn_text : exn → string;
}.

(** The files, by path, and the paths that cannot be opened for writing. *)
Record filesystem := {
  files : list (string * string);
  unwritable : list string;
}.

Inductive access : Type :=
  | OpenRead (path : string)
  | OpenWrite (path : string).

(** What a run leaves behind. *)
Record world := {
  fs : filesystem;
  opened : list access;      (* the files opened, in order *)
  printed : list string;     (* the lines on standard output, in order *)
}.

Definition IO (A : Type) : Type := world → result A * world.

#[export] Instance IO_ret : MRet IO := λ A a w, (Ok a, w).
#[export] Instance IO_bind : MBind IO := λ A B f m w,
  match m w with
  | (Ok a, w') => f a w'
  | (Raise e, w') => (Raise e, w')
  end.

Definition print (line : string) : IO unit := λ w,
  (Ok tt, {| fs := fs w; opened := opened w; printed := printed w ++ [line] |}).

(** Whether standard output can encode a line.  With a strict encoding a
    line that holds a character the encoding does not have makes [print]
    raise UnicodeEncodeError, which is a ValueError. *)
Class Stdout := stdout_encodes : string → bool.

(** [print(line)] inside the [try] of [main]: what it raises is caught by the
    handler of line 123.  (The lines of 106 and 124 are printed where
    nothing of the script would catch a failure; for them the model takes
    standard output to accept the line, as [print] above does.) *)
Definition print_in_try `{Stdout} (line : string) : IO unit := λ w,
  if stdout_encodes line then print line w else (Raise ValueError, w).

Definition lift {A} (r : result A) : IO A := λ w, (r, w).

(** [open(path, 'r')] and reading the text. *)
Definition read_file (path : string) : IO string := λ w,
  let w' := {| fs := fs w; opened := opened w ++ [OpenRead path];
               printed := printed w |} in
  match assoc path (files (fs w)) with
  | Some text => (Ok text, w')
  | None => (Raise OSError, w')
  end.

Definition put_file (path text : string) (f : filesystem) : filesystem :=
  {| files := (path, text) :: filter (λ kv, negb (String.eqb kv.1 path)) (files f);
     unwritable := unwritable f |}.

(** [open(path, 'w')]: the file is created or emptied. *)
Definition open_write (path : string) : IO unit := λ w,
  let log := opened w ++ [OpenWrite path] in
  if decide (path ∈ unwritable (fs w))
  then (Raise OSError, {| fs := fs w; opened := log; printed := printed w |})
  else (Ok tt, {| fs := put_file path "" (fs w); opened := log;
                  printed := printed w |}).

Definition write_text (path text : string) : IO unit := λ w,
  (Ok tt, {| fs := put_file path text (fs w); opened := opened w;
             printed := printed w |}).

(** [main], given [sys.argv]: the exit status and the world after. *)
Definition main `{PyStr} `{JsonLib} `{Stdout} (argv : list string) (w : world)
  : Z * world :=
  if negb (length argv =? 3)%nat then
    let '(_, w1) :=
      print "Usage: audit-to-sarif.py <input.json> <output.sarif>" w in
    (1%Z, w1)
  else
    let input_file := default "" (argv !! 1%nat) in
    let output_file := default "" (argv !! 2%nat) in
    let attempt : IO unit :=
      text ← read_file input_file;
      audit_data ← lift (json_load text);
      sarif_data ← lift (convert_audit_to_sarif audit_data);
      open_write output_file;;
      out ← lift (json_dump sarif_data);
      write_text output_file out;;
      print_in_try
        ("Successfully converted " +:+ input_file +:+ " to " +:+ output_file)
    in
    match attempt w with
    | (Ok _, w1) => (0%Z, w1)
    | (Raise e, w1) =>
        let '(_, w2) := print ("Error: " +:+ exn_text e) w1 in
        (1%Z, w2)
    end.

(** ** Vocabulary of the specification *)

(** [vuln.k], with [dflt] when the key is absent. *)
Definition top_field (kvs : list (string * value)) (k : string) (dflt : value)
  : value :=
  default dflt (assoc k kvs).

(** [vuln.rec.k], with [dflt] when [rec] or [k] is absent. *)
Definition sub_field (kvs : list (string * value)) (rec k : string)
    (dflt : value) : value :=
  match assoc rec kvs with
  | Some (VDict fields) => default dflt (assoc k fields)
  | _ => dflt
  end.

(** The shape section 3 gives a vulnerability: a sub-record that is present
    is a mapping, a severity that is present is a string. *)
Definition absent_or_dict (kvs : list (string * value)) (k : string) : bool :=
  match assoc k kvs with
  | None | Some (VDict _) => true
  | Some _ => false
  end.

Definition absent_or_str (kvs : list (string * value)) (k : string) : bool :=
  match assoc k kvs with
  | None | Some (VStr _) => true
  | Some _ => false
  end.

Definition rule_typed (kvs : list (string * value)) : bool :=
  absent_or_dict kvs "advisory" && absent_or_dict kvs "package"
  && absent_or_dict kvs "cvss".

Definition result_typed (kvs : list (string * value)) : bool :=
  rule_typed kvs && absent_or_str kvs "severity".

Definition vuln_typed (vuln : value) : bool :=
  match vuln with
  | VDict kvs => result_typed kvs
  | _ => false
  end.

(** The objects the loop of [convert_audit_to_sarif] ranges over: the input
    vulnerability list. *)
Definition input_vulnerabilities (audit_data : value) : result (list value) :=
  section ← dict_get audit_data "vulnerabilities" (VDict []);
  vulnerabilities ← dict_get section "list" (VList []);
  py_iter vulnerabilities.

(** [str] of the constants, for running the model on examples. *)
Definition str_of_constant : PyStr := λ x,
  match x with
  | VNone => "None"
  | VBool true => "True"
  | VBool false => "False"
  | _ => ""
  end.

(** A JSON library that accepts no text, for runs that read no file. *)
Definition rejecting_json : JsonLib :=
  {| json_load := λ _, Raise ValueError;
     json_dump := λ _, Raise ValueError;
     exn_text := λ _, "" |}.

(** A standard output that encodes the lines made of ASCII characters and
    no other. *)
Definition ascii_stdout : Stdout := λ line,
  forallb (λ c, (N_of_ascii c <? 128)%N) (list_ascii_of_string line).

(** The vulnerability of the scenario of section 8, and its report. *)
Definition scenario_vuln : list (string * value) :=
  [ ("advisory", VDict
      [ ("id", VStr "RUSTSEC-2023-0001");
        ("title", VStr "Bad crate");
        ("description", VStr "desc");
        ("url", VStr "http://x") ]);
    ("package", VDict [ ("name", VStr "foo"); ("version", VStr "1.2.3") ]);
    ("severity", VStr "high");
    ("cvss", VDict [ ("score", VFloat 8.1) ]) ].

Definition scenario_report : value :=
  VDict [ ("vulnerabilities", VDict [ ("list", VList [ VDict scenario_vuln ]) ]) ].

(** The document the scenario expects for [scenario_report]. *)
Definition scenario_sarif : value :=
  VDict
  [ ("$schema", VStr "https://json.schemastore.org/sarif-2.1.0.json");
    ("version", VStr "2.1.0");
    ("runs", VList
      [ VDict
          [ ("tool", VDict
              [ ("driver", VDict
                  [ ("name", VStr "cargo-audit");
                    ("version", VStr "0.18.0");
                    ("informationUri", VStr "https://github.com/RustSec/rustsec");
                    ("rules", VList
                      [ VDict
                          [ ("id", VStr "RUSTSEC-2023-0001");
                            ("name", VStr "Bad crate");
                            ("shortDescription", VDict [ ("text", VStr "Bad crate") ]);
                            ("fullDescription", VDict [ ("text", VStr "desc") ]);
                            ("help", VDict
                              [ ("text", VStr "Update foo to a patched version");
                                ("markdown", VStr
                                  ("## Bad crate" +:+ nl +:+ nl +:+ "desc"
                                   +:+ nl +:+ nl +:+ "### References"
                                   +:+ nl +:+ "- http://x")) ]);
                            ("properties", VDict
                              [ ("security-severity", VFloat 8.1);
                                ("tags", VList
                                  [ VStr "security"; VStr "vulnerability" ]) ]) ] ]) ]) ]);
            ("results", VList
              [ VDict
                  [ ("ruleId", VStr "RUSTSEC-2023-0001");
                    ("level", VStr "error");
                    ("message", VDict [ ("text", VStr "desc") ]);
                    ("locations", VList
                      [ VDict
                          [ ("physicalLocation", VDict
                              [ ("artifactLocation", VDict
                                  [ ("uri", VStr "Cargo.toml") ]);
                                ("region", VDict
                                  [ ("startLine", VInt 1);
                                    ("startColumn", VInt 1) ]) ]) ] ]);
                    ("partialFingerprints", VDict
                      [ ("packageName", VStr "foo");
                        ("packageVersion", VStr "1.2.3") ]);
                    ("properties", VDict
                      [ ("security-severity", VFloat 8.1);
                        ("tags", VList
                          [ VStr "security"; VStr "dependency";
                            VStr "vulnerability" ]);
                        ("precision", VStr "very-high") ]) ] ]);
            ("columnKind", VStr "utf16CodeUnits") ] ]) ].

(** ** Vocabulary for the store *)

(** [m] does not write to an object that exists: the store after is the
    store before with new objects at its end. *)
Definition allocates {A} (m : M A) : Prop :=
  ∀ h, h `prefix_of` (m h).2.

(** Every object seen in [σ] is seen, unchanged, in [σ']. *)
#[export] Instance store_included : SqSubsetEq store := λ σ σ',
  ∀ l c, σ l = Some c → σ' l = Some c.

(** The hidden locations exist. *)
Definition below (hidden : list loc) (h : heap) : Prop :=
  Forall (λ l, l < length h) hidden.

(** The seven objects of the document of lines 80-95, allocated from
    [base] on, with [rules] and [results] the current items of its two
    arrays. *)
Definition skeleton (base : loc) (rules results : list hval) (h : heap) : Prop :=
  h !! base = Some (CList rules)
  ∧ h !! (base + 1) = Some (CDict
      [ ("name", HStr "cargo-audit");
        ("version", HStr "0.18.0");
        ("informationUri", HStr "https://github.com/RustSec/rustsec");
        ("rules", HRef base) ])
  ∧ h !! (base + 2) = Some (CDict [ ("driver", HRef (base + 1)) ])
  ∧ h !! (base + 3) = Some (CList results)
  ∧ h !! (base + 4) = Some (CDict
      [ ("tool", HRef (base + 2));
        ("results", HRef (base + 3));
        ("columnKind", HStr "utf16CodeUnits") ])
  ∧ h !! (base + 5) = Some (CList [ HRef (base + 4) ])
  ∧ h !! (base + 6) = Some (CDict
      [ ("$schema", HStr "https://json.schemastore.org/sarif-2.1.0.json");
        ("version", HStr "2.1.0");
        ("runs", HRef (base + 5)) ]).

(** The two arrays are the objects the loop writes to. *)
Definition arrays (base : loc) : list loc := [ base; base + 3 ].

(** A run on the store against a result on trees: the run kept every object
    of [h0], and ended the same way, with an object that stands for the
    tree or with the same exception. *)
Definition simulates (hidden : list loc) (h0 : heap)
    (run : outcome hval * heap) (r : result value) : Prop :=
  h0 `prefix_of` run.2
  ∧ match run.1, r with
    | Done x, Ok v => repr (visible hidden run.2) x v
    | Raised e, Raise e' => e = e'
    | _, _ => False
    end.

(** [str] of the constants, on the store. *)
Definition heap_str_of_constant : HeapStr := λ _ x,
  match x with
  | HNone => "None"
  | HBool true => "True"
  | HBool false => "False"
  | _ => ""
  end.

(** A store that holds the report of the scenario, innermost objects
    first; the report is the last object. *)
Definition scenario_heap : heap :=
  [ CDict
      [ ("id", HStr "RUSTSEC-2023-0001");
        ("title", HStr "Bad crate");
        ("description", HStr "desc");
        ("url", HStr "http://x") ];
    CDict [ ("name", HStr "foo"); ("version", HStr "1.2.3") ];
    CDict [ ("score", HFloat 8.1) ];
    CDict
      [ ("advisory", HRef 0);
        ("package", HRef 1);
        ("severity", HStr "high");
        ("cvss", HRef 2) ];
    CList [ HRef 3 ];
    CDict [ ("list", HRef 4) ];
    CDict [ ("vulnerabilities", HRef 5) ] ].

(** The seven objects of the document, as allocated from [base] on. *)
Definition skeleton_cells (base : loc) : list cell :=
  [ CList [];
    CDict
      [ ("name", HStr "cargo-audit");
        ("version", HStr "0.18.0");
        ("informationUri", HStr "https://github.com/RustSec/rustsec");
        ("rules", HRef base) ];
    CDict [ ("driver", HRef (base + 1)) ];
    CList [];
    CDict
      [ ("tool", HRef (base + 2));
        ("results", HRef (base + 3));
        ("columnKind", HStr "utf16CodeUnits") ];
    CList [ HRef (base + 4) ];
    CDict
      [ ("$schema", HStr "https://json.schemastore.org/sarif-2.1.0.json");
        ("version", HStr "2.1.0");
        ("runs", HRef (base + 5)) ] ].

(** The first two statements of [convert_audit_to_sarif]: the list the loop
    ranges over. *)
Definition input_list (audit_data : hval) : M hval :=
  section ← Heap.dict_get audit_data "vulnerabilities" (alloc (CDict []));
  Heap.dict_get section "list" (alloc (CList [])).

(** The state of the loop: the document is in place, and the items of its
    two arrays stand for [rules] and [results], without going through the
    arrays themselves. *)
Definition loop_state (base : loc) (rs ss : list hval)
    (rules results : list value) (h : heap) : Prop :=
  skeleton base rs ss h
  ∧ Forall2 (repr (visible (arrays base) h)) rs rules
  ∧ Forall2 (repr (visible (arrays base) h)) ss results.

(** How a loop on the store answers the loop on trees, started with the
    arrays [rules] and [results]: it ends the same way; when it completes,
    the document on the store stands for the document on trees. *)
Definition loop_simulates `{PyStr} (h0 : heap) (base : loc)
    (run : outcome unit * heap) (r : result value) : Prop :=
  h0 `prefix_of` run.2
  ∧ match run.1, r with
    | Done _, Ok doc =>
        ∃ rs ss rules results,
          doc = sarif_document rules results
          ∧ loop_state base rs ss rules results run.2
    | Raised e, Raise e' => e = e'
    | _, _ => False
    end.

(** A store with a vulnerability whose advisory id is a list. *)
Definition shared_heap : heap :=
  [ CList [ HInt 1 ];
    CDict [ ("id", HRef 0) ];
    CDict [ ("advisory", HRef 1) ] ].

(** ** Further vocabulary *)

(** The vulnerabilities the rule builder accepts: mappings in which
    [advisory], [package] and [cvss] are each absent or a mapping. *)
Definition rule_input_typed (vuln : value) : bool :=
  match vuln with
  | VDict kvs => rule_typed kvs
  | _ => false
  end.

(** The levels SARIF gives a result that [convert_severity] can return. *)
Definition sarif_levels : list value :=
  [ VStr "error"; VStr "warning"; VStr "note" ].

(** What [main] holds when it comes to open the output file: the document
    made from the text of the input file. *)
Definition converted_input `{PyStr} `{JsonLib} (f : filesystem) (input_file : string)
  : result value :=
  text ← match assoc input_file (files f) with
         | Some text => Ok text
         | None => Raise OSError
         end;
  audit_data ← json_load text;
  convert_audit_to_sarif audit_data.

(** A JSON library that reads every text as the report of the scenario and
    writes every document as the same text. *)
Definition scenario_json : JsonLib :=
  {| json_load := λ _, Ok scenario_report;
     json_dump := λ _, Ok "{ }";
     exn_text := λ _, "" |}.

(** A world with the input file of the scenario. *)
Definition scenario_world : world :=
  {| fs := {| files := [ ("audit.json", "{ }"); ("notes.txt", "keep") ];
              unwritable := [ "/proc/version" ] |};
     opened := [];
     printed := [] |}.

(** A computation on the store that, when it returns, returns a reference
    to an object that did not exist before. *)
Definition returns_new (m : M hval) : Prop :=
  ∀ h x h', m h = (Done x, h') → ∃ l, x = HRef l ∧ (length h ≤ l)%nat.



(** * Properties *)

(** ** The severity table *)

Lemma lower_upper_ascii c : lower_ascii (upper_ascii c) = lower_ascii c.
Proof. destruct c as [[] [] [] [] [] [] [] []]; reflexivity. Qed.

Lemma lower_upper s : lower (upper s) = lower s.
Proof. induction s as [|c s IH]; simpl; [done|]. by rewrite lower_upper_ascii, IH. Qed.

(** C2: on every string the severity mapper returns a level, never raises:
    "error" when the lowercased string is "critical" or "high", "warning"
    when it is "medium", "note" when it is "low" or "informational", and
    "warning" for any other string.  Letter case does not matter: two strings
    with the same lowercase form get the same level, and so do a string and
    its uppercase form. *)
Theorem convert_severity_table (s : string) :
  convert_severity (VStr s) = Ok (VStr
    (if decide (lower s = "critical" ∨ lower s = "high") then "error"
     else if decide (lower s = "medium") then "warning"
     else if decide (lower s = "low" ∨ lower s = "informational") then "note"
     else "warning"))
  ∧ (∀ s', lower s' = lower s →
       convert_severity (VStr s') = convert_severity (VStr s))
  ∧ convert_severity (VStr (upper s)) = convert_severity (VStr s).
Proof.
  split; [|split].
  - unfold convert_severity, severity_map; simpl.
    do 2 f_equal.
    destruct (String.eqb_spec (lower s) "critical") as [->|?]; [done|].
    destruct (String.eqb_spec (lower s) "high") as [->|?]; [done|].
    destruct (String.eqb_spec (lower s) "medium") as [->|?]; [done|].
    destruct (String.eqb_spec (lower s) "low") as [->|?]; [done|].
    destruct (String.eqb_spec (lower s) "informational") as [->|?]; [done|].
    by rewrite !decide_False by tauto.
  - intros s' Hs. unfold convert_severity; simpl. by rewrite Hs.
  - unfold convert_severity; simpl. by rewrite lower_upper.
Qed.

Lemma convert_severity_table_witness :
  convert_severity (VStr "HiGh") = Ok (VStr "error")
  ∧ convert_severity (VStr "Informational") = convert_severity (VStr "INFORMATIONAL")
  ∧ convert_severity (VStr "urgent") = Ok (VStr "warning").
Proof.
  split; [|split].
  - exact (proj1 (convert_severity_table "HiGh")).
  - exact (proj1 (proj2 (convert_severity_table "INFORMATIONAL")) "Informational" eq_refl).
  - exact (proj1 (convert_severity_table "urgent")).
Defined.

(** ** The two record builders *)

Lemma dict_get_top kvs k dflt :
  dict_get (VDict kvs) k dflt = Ok (top_field kvs k dflt).
Proof. reflexivity. Qed.

Lemma dict_get_sub kvs rec k dflt :
  absent_or_dict kvs rec = true →
  dict_get (top_field kvs rec (VDict [])) k dflt = Ok (sub_field kvs rec k dflt).
Proof.
  unfold absent_or_dict, top_field, sub_field.
  by destruct (assoc rec kvs) as [[]|].
Qed.

Lemma dict_get_sub_untyped kvs rec k dflt :
  absent_or_dict kvs rec = false →
  dict_get (top_field kvs rec (VDict [])) k dflt = Raise AttributeError.
Proof.
  unfold absent_or_dict, top_field.
  by destruct (assoc rec kvs) as [[]|].
Qed.

Lemma convert_severity_typed kvs :
  absent_or_str kvs "severity" = true →
  ∃ level, convert_severity (top_field kvs "severity" (VStr "medium")) = Ok (VStr level).
Proof.
  unfold absent_or_str, top_field.
  destruct (assoc "severity" kvs) as [[]|]; try done; by eexists.
Qed.

Lemma rule_typed_inv kvs :
  rule_typed kvs = true →
  absent_or_dict kvs "advisory" = true ∧ absent_or_dict kvs "package" = true
  ∧ absent_or_dict kvs "cvss" = true.
Proof. unfold rule_typed. rewrite !andb_true_iff. tauto. Qed.

Lemma result_typed_inv kvs :
  result_typed kvs = true →
  rule_typed kvs = true ∧ absent_or_str kvs "severity" = true.
Proof. unfold result_typed. by rewrite andb_true_iff. Qed.

#[local] Ltac step_builder :=
  repeat first
    [ rewrite dict_get_top
    | rewrite dict_get_sub by assumption
    | rewrite (dict_get_sub _ "advisory") by assumption
    | rewrite (dict_get_sub _ "package") by assumption
    | rewrite (dict_get_sub _ "cvss") by assumption
    | progress simpl ].

(** The result builder on a vulnerability of the documented shape. *)
Lemma create_sarif_result_typed kvs :
  result_typed kvs = true →
  ∃ level,
    convert_severity (top_field kvs "severity" (VStr "medium")) = Ok (VStr level)
    ∧ create_sarif_result (VDict kvs) = Ok (VDict
        [ ("ruleId", sub_field kvs "advisory" "id" (VStr "UNKNOWN"));
          ("level", VStr level);
          ("message", VDict
            [ ("text", sub_field kvs "advisory" "description"
                         (VStr "Unknown vulnerability")) ]);
          ("locations", VList
            [ VDict
                [ ("physicalLocation", VDict
                    [ ("artifactLocation", VDict [ ("uri", VStr "Cargo.toml") ]);
                      ("region", VDict
                        [ ("startLine", VInt 1); ("startColumn", VInt 1) ]) ]) ] ]);
          ("partialFingerprints", VDict
            [ ("packageName", sub_field kvs "package" "name" (VStr ""));
              ("packageVersion", sub_field kvs "package" "version" (VStr "")) ]);
          ("properties", VDict
            [ ("security-severity", sub_field kvs "cvss" "score" (VFloat 5.0));
              ("tags", VList
                [ VStr "security"; VStr "dependency"; VStr "vulnerability" ]);
              ("precision", VStr "very-high") ]) ]).
Proof.
  intros [(Ha & Hp & Hc)%rule_typed_inv Hs]%result_typed_inv.
  destruct (convert_severity_typed kvs Hs) as [level Hlevel].
  exists level. split; [done|].
  unfold create_sarif_result. step_builder.
  rewrite Hlevel. by step_builder.
Qed.

(** The rule builder on a vulnerability of the documented shape. *)
Lemma create_sarif_rule_typed `{PyStr} kvs :
  rule_typed kvs = true →
  create_sarif_rule (VDict kvs) = Ok (VDict
    [ ("id", sub_field kvs "advisory" "id" (VStr "UNKNOWN"));
      ("name", sub_field kvs "advisory" "title" (VStr "Unknown vulnerability"));
      ("shortDescription", VDict
        [ ("text", sub_field kvs "advisory" "title"
                     (VStr "Unknown vulnerability")) ]);
      ("fullDescription", VDict
        [ ("text", sub_field kvs "advisory" "description" (VStr "")) ]);
      ("help", VDict
        [ ("text", VStr
            ("Update "
             +:+ format_field (sub_field kvs "package" "name" (VStr "package"))
             +:+ " to a patched version"));
          ("markdown", VStr
            ("## "
             +:+ format_field (sub_field kvs "advisory" "title" (VStr "Vulnerability"))
             +:+ nl +:+ nl
             +:+ format_field (sub_field kvs "advisory" "description" (VStr ""))
             +:+ nl +:+ nl +:+ "### References" +:+ nl +:+ "- "
             +:+ format_field (sub_field kvs "advisory" "url" (VStr ""))) ) ]);
      ("properties", VDict
        [ ("security-severity", sub_field kvs "cvss" "score" (VFloat 5.0));
          ("tags", VList [ VStr "security"; VStr "vulnerability" ]) ]) ]).
Proof.
  intros (Ha & Hp & Hc)%rule_typed_inv.
  unfold create_sarif_rule. by step_builder.
Qed.

(** ** Document assembly *)

Lemma append_at_rules rules results (arg : result value) :
  append_at (sarif_document rules results) rules_path arg
  = x ← arg; Ok (sarif_document (rules ++ [x]) results).
Proof. by destruct arg. Qed.

Lemma append_at_results rules results (arg : result value) :
  append_at (sarif_document rules results) results_path arg
  = x ← arg; Ok (sarif_document rules (results ++ [x])).
Proof. by destruct arg. Qed.

Section Assembly.
Context `{PyStr}.

(** Every turn of the loop appends one rule and one result, built from the
    vulnerability of that turn. *)
Lemma for_each_vuln_inv vulns rules results doc :
  for_each_vuln vulns (sarif_document rules results) = Ok doc →
  ∃ new_rules new_results,
    doc = sarif_document (rules ++ new_rules) (results ++ new_results)
    ∧ Forall2 (λ vuln rule, create_sarif_rule vuln = Ok rule) vulns new_rules
    ∧ Forall2 (λ vuln res, create_sarif_result vuln = Ok res) vulns new_results.
Proof.
  revert rules results.
  induction vulns as [|vuln vulns IH]; intros rules results; simpl.
  - intros [= <-]. exists [], []. by rewrite !app_nil_r.
  - rewrite append_at_rules.
    destruct (create_sarif_rule vuln) as [rule|] eqn:Hrule; [simpl|done].
    rewrite append_at_results.
    destruct (create_sarif_result vuln) as [res|] eqn:Hres; [simpl|done].
    intros (new_rules & new_results & -> & Hr & Hs)%IH.
    exists (rule :: new_rules), (res :: new_results).
    rewrite <- !app_assoc. by repeat constructor.
Qed.

(** The loop fails only when a builder does. *)
Lemma for_each_vuln_ok vulns rules results new_rules new_results :
  Forall2 (λ vuln rule, create_sarif_rule vuln = Ok rule) vulns new_rules →
  Forall2 (λ vuln res, create_sarif_result vuln = Ok res) vulns new_results →
  for_each_vuln vulns (sarif_document rules results)
  = Ok (sarif_document (rules ++ new_rules) (results ++ new_results)).
Proof.
  intros Hr. revert rules results new_results.
  induction Hr as [|vuln rule vulns new_rules Hrule _ IH];
    intros rules results new_results Hs; inversion_clear Hs as [|? res ? rest Hres Hrest].
  - by rewrite !app_nil_r.
  - simpl. rewrite append_at_rules, Hrule. simpl.
    rewrite append_at_results, Hres. simpl.
    rewrite (IH _ _ _ Hrest). by rewrite <- !app_assoc.
Qed.

Lemma convert_audit_to_sarif_unfold audit_data :
  convert_audit_to_sarif audit_data
  = vulns ← input_vulnerabilities audit_data;
    for_each_vuln vulns (sarif_document [] []).
Proof.
  unfold convert_audit_to_sarif, input_vulnerabilities.
  destruct (dict_get audit_data _ _) as [section|]; [simpl|done].
  by destruct (dict_get section _ _).
Qed.

Lemma convert_audit_to_sarif_inv audit_data doc :
  convert_audit_to_sarif audit_data = Ok doc →
  ∃ vulns rules results,
    input_vulnerabilities audit_data = Ok vulns
    ∧ doc = sarif_document rules results
    ∧ Forall2 (λ vuln rule, create_sarif_rule vuln = Ok rule) vulns rules
    ∧ Forall2 (λ vuln res, create_sarif_result vuln = Ok res) vulns results.
Proof.
  rewrite convert_audit_to_sarif_unfold.
  destruct (input_vulnerabilities audit_data) as [vulns|]; [simpl|done].
  intros (rules & results & -> & Hr & Hs)%for_each_vuln_inv.
  by exists vulns, rules, results.
Qed.

(** A vulnerability of the documented shape is accepted by both builders. *)
Lemma builders_accept_typed vuln :
  vuln_typed vuln = true →
  (∃ rule, create_sarif_rule vuln = Ok rule)
  ∧ (∃ res, create_sarif_result vuln = Ok res).
Proof.
  destruct vuln as [| | | | | |kvs]; try done. simpl. intros Ht.
  destruct (create_sarif_result_typed kvs Ht) as (level & _ & ->).
  apply result_typed_inv in Ht as [Ht _].
  rewrite (create_sarif_rule_typed kvs Ht). eauto.
Qed.

(** The conversion succeeds whenever the report yields a vulnerability
    list all of whose entries have the documented shape. *)
Lemma convert_audit_to_sarif_succeeds audit_data vulns :
  input_vulnerabilities audit_data = Ok vulns →
  Forall (λ vuln, vuln_typed vuln = true) vulns →
  ∃ rules results,
    convert_audit_to_sarif audit_data = Ok (sarif_document rules results)
    ∧ length rules = length vulns ∧ length results = length vulns.
Proof.
  intros Hin Hall.
  assert (∃ rules results,
    Forall2 (λ vuln rule, create_sarif_rule vuln = Ok rule) vulns rules
    ∧ Forall2 (λ vuln res, create_sarif_result vuln = Ok res) vulns results)
    as (rules & results & Hr & Hs).
  { clear Hin. induction Hall as [|vuln vulns Hv _ (rules & results & Hr & Hs)].
    - exists [], []. by split; constructor.
    - destruct (builders_accept_typed vuln Hv) as [[rule Hrule] [res Hres]].
      exists (rule :: rules), (res :: results). by split; constructor. }
  exists rules, results.
  rewrite convert_audit_to_sarif_unfold, Hin. simpl.
  rewrite (for_each_vuln_ok _ [] [] _ _ Hr Hs). simpl.
  split; [done|].
  by rewrite <- (Forall2_length _ _ _ Hr), <- (Forall2_length _ _ _ Hs).
Qed.

End Assembly.

(** ** When the builders raise *)

Lemma create_sarif_rule_inv `{PyStr} vuln rule :
  create_sarif_rule vuln = Ok rule →
  ∃ kvs, vuln = VDict kvs ∧ rule_typed kvs = true.
Proof.
  destruct vuln as [| | | | | |kvs]; try done.
  intros Hok. exists kvs. split; [done|].
  unfold rule_typed.
  destruct (absent_or_dict kvs "advisory") eqn:Ha; simpl.
  2: { revert Hok. unfold create_sarif_rule. step_builder.
       rewrite !(dict_get_sub_untyped kvs "advisory") by assumption. simpl. discriminate. }
  destruct (absent_or_dict kvs "package") eqn:Hp; simpl.
  2: { revert Hok. unfold create_sarif_rule. step_builder.
       rewrite !(dict_get_sub_untyped kvs "package") by assumption. simpl. discriminate. }
  destruct (absent_or_dict kvs "cvss") eqn:Hc; simpl; [done|].
  revert Hok. unfold create_sarif_rule. step_builder.
  rewrite !(dict_get_sub_untyped kvs "cvss") by assumption. simpl. discriminate.
Qed.

Lemma convert_severity_untyped kvs :
  absent_or_str kvs "severity" = false →
  convert_severity (top_field kvs "severity" (VStr "medium")) = Raise AttributeError.
Proof.
  unfold absent_or_str, top_field.
  by destruct (assoc "severity" kvs) as [[]|].
Qed.

Lemma create_sarif_result_inv vuln res :
  create_sarif_result vuln = Ok res →
  ∃ kvs, vuln = VDict kvs ∧ result_typed kvs = true.
Proof.
  destruct vuln as [| | | | | |kvs]; try done.
  intros Hok. exists kvs. split; [done|].
  unfold result_typed, rule_typed.
  destruct (absent_or_dict kvs "advisory") eqn:Ha; simpl.
  2: { revert Hok. unfold create_sarif_result. step_builder.
       rewrite !(dict_get_sub_untyped kvs "advisory") by assumption. simpl. discriminate. }
  destruct (absent_or_str kvs "severity") eqn:Hs; simpl.
  2: { revert Hok. unfold create_sarif_result. step_builder.
       rewrite convert_severity_untyped by assumption. simpl. discriminate. }
  destruct (convert_severity_typed kvs Hs) as [level Hlevel].
  destruct (absent_or_dict kvs "package") eqn:Hp; simpl.
  2: { revert Hok. unfold create_sarif_result. step_builder.
       rewrite Hlevel. step_builder. rewrite !(dict_get_sub_untyped kvs "package") by assumption. simpl. discriminate. }
  destruct (absent_or_dict kvs "cvss") eqn:Hc; simpl; [done|].
  revert Hok. unfold create_sarif_result. step_builder.
  rewrite Hlevel. step_builder. rewrite !(dict_get_sub_untyped kvs "cvss") by assumption. simpl. discriminate.
Qed.

(** ** The claims about the builders *)

(** C3: a vulnerability that is a mapping without the keys [advisory],
    [package], [severity] and [cvss] is accepted by both builders, and the
    records they build hold the documented defaults: id and ruleId "UNKNOWN",
    name and message text "Unknown vulnerability", level "warning",
    security-severity 5.0, empty packageName and packageVersion. *)
Theorem builders_use_defaults `{PyStr} (kvs : list (string * value)) :
  assoc "advisory" kvs = None →
  assoc "package" kvs = None →
  assoc "severity" kvs = None →
  assoc "cvss" kvs = None →
  create_sarif_result (VDict kvs) = Ok (VDict
    [ ("ruleId", VStr "UNKNOWN");
      ("level", VStr "warning");
      ("message", VDict [ ("text", VStr "Unknown vulnerability") ]);
      ("locations", VList
        [ VDict
            [ ("physicalLocation", VDict
                [ ("artifactLocation", VDict [ ("uri", VStr "Cargo.toml") ]);
                  ("region", VDict
                    [ ("startLine", VInt 1); ("startColumn", VInt 1) ]) ]) ] ]);
      ("partialFingerprints", VDict
        [ ("packageName", VStr ""); ("packageVersion", VStr "") ]);
      ("properties", VDict
        [ ("security-severity", VFloat 5.0);
          ("tags", VList
            [ VStr "security"; VStr "dependency"; VStr "vulnerability" ]);
          ("precision", VStr "very-high") ]) ])
  ∧ create_sarif_rule (VDict kvs) = Ok (VDict
    [ ("id", VStr "UNKNOWN");
      ("name", VStr "Unknown vulnerability");
      ("shortDescription", VDict [ ("text", VStr "Unknown vulnerability") ]);
      ("fullDescription", VDict [ ("text", VStr "") ]);
      ("help", VDict
        [ ("text", VStr "Update package to a patched version");
          ("markdown", VStr
            ("## Vulnerability" +:+ nl +:+ nl +:+ nl +:+ nl
             +:+ "### References" +:+ nl +:+ "- ")) ]);
      ("properties", VDict
        [ ("security-severity", VFloat 5.0);
          ("tags", VList [ VStr "security"; VStr "vulnerability" ]) ]) ]).
Proof.
  intros Ha Hp Hs Hc.
  unfold create_sarif_result, create_sarif_rule, dict_get.
  by rewrite Ha, Hp, Hs, Hc.
Qed.

Lemma builders_use_defaults_witness :
  create_sarif_result (VDict [ ("versions", VDict [ ("patched", VList []) ]) ])
  = Ok (VDict
    [ ("ruleId", VStr "UNKNOWN");
      ("level", VStr "warning");
      ("message", VDict [ ("text", VStr "Unknown vulnerability") ]);
      ("locations", VList
        [ VDict
            [ ("physicalLocation", VDict
                [ ("artifactLocation", VDict [ ("uri", VStr "Cargo.toml") ]);
                  ("region", VDict
                    [ ("startLine", VInt 1); ("startColumn", VInt 1) ]) ]) ] ]);
      ("partialFingerprints", VDict
        [ ("packageName", VStr ""); ("packageVersion", VStr "") ]);
      ("properties", VDict
        [ ("security-severity", VFloat 5.0);
          ("tags", VList
            [ VStr "security"; VStr "dependency"; VStr "vulnerability" ]);
          ("precision", VStr "very-high") ]) ]).
Proof.
  exact (proj1 (@builders_use_defaults str_of_constant
    [ ("versions", VDict [ ("patched", VList []) ]) ]
    eq_refl eq_refl eq_refl eq_refl)).
Defined.

(** C5, as stated, fails: a vulnerability that is a mapping but whose
    [advisory] is [null] gets no result at all, the builder raises. *)
Lemma create_sarif_result_raises_on_null_advisory :
  create_sarif_result (VDict [ ("advisory", VNone); ("severity", VStr "high") ])
  = Raise AttributeError.
Proof. reflexivity. Qed.

(** C5, amended: for every vulnerability that is a mapping in which
    [advisory], [package] and [cvss] are each absent or a mapping and
    [severity] is absent or a string, the result builder returns a record
    with ruleId = advisory.id (default "UNKNOWN"), level = the severity
    mapping of [severity] (default "medium"), message.text =
    advisory.description (default "Unknown vulnerability"), exactly one
    location, with artifact URI "Cargo.toml" at line 1 column 1,
    partialFingerprints packageName and packageVersion from [package]
    (default empty string each), and properties security-severity =
    cvss.score (default 5.0), tags security, dependency, vulnerability, and
    precision "very-high". *)
Theorem create_sarif_result_fields (kvs : list (string * value)) :
  result_typed kvs = true →
  ∃ res,
    create_sarif_result (VDict kvs) = Ok res
    ∧ get_path res [ KStr "ruleId" ]
      = Ok (sub_field kvs "advisory" "id" (VStr "UNKNOWN"))
    ∧ get_path res [ KStr "level" ]
      = convert_severity (top_field kvs "severity" (VStr "medium"))
    ∧ get_path res [ KStr "message"; KStr "text" ]
      = Ok (sub_field kvs "advisory" "description" (VStr "Unknown vulnerability"))
    ∧ get_path res [ KStr "locations" ]
      = Ok (VList
          [ VDict
              [ ("physicalLocation", VDict
                  [ ("artifactLocation", VDict [ ("uri", VStr "Cargo.toml") ]);
                    ("region", VDict
                      [ ("startLine", VInt 1); ("startColumn", VInt 1) ]) ]) ] ])
    ∧ get_path res [ KStr "partialFingerprints" ]
      = Ok (VDict
          [ ("packageName", sub_field kvs "package" "name" (VStr ""));
            ("packageVersion", sub_field kvs "package" "version" (VStr "")) ])
    ∧ get_path res [ KStr "properties" ]
      = Ok (VDict
          [ ("security-severity", sub_field kvs "cvss" "score" (VFloat 5.0));
            ("tags", VList
              [ VStr "security"; VStr "dependency"; VStr "vulnerability" ]);
            ("precision", VStr "very-high") ]).
Proof.
  intros Ht.
  destruct (create_sarif_result_typed kvs Ht) as (level & Hlevel & ->).
  eexists. split; [reflexivity|].
  rewrite Hlevel. by repeat split.
Qed.

Lemma create_sarif_result_fields_witness :
  ∃ res,
    create_sarif_result (VDict scenario_vuln) = Ok res
    ∧ get_path res [ KStr "ruleId" ] = Ok (VStr "RUSTSEC-2023-0001")
    ∧ get_path res [ KStr "level" ] = Ok (VStr "error")
    ∧ get_path res [ KStr "message"; KStr "text" ] = Ok (VStr "desc")
    ∧ get_path res [ KStr "locations" ]
      = Ok (VList
          [ VDict
              [ ("physicalLocation", VDict
                  [ ("artifactLocation", VDict [ ("uri", VStr "Cargo.toml") ]);
                    ("region", VDict
                      [ ("startLine", VInt 1); ("startColumn", VInt 1) ]) ]) ] ])
    ∧ get_path res [ KStr "partialFingerprints" ]
      = Ok (VDict
          [ ("packageName", VStr "foo"); ("packageVersion", VStr "1.2.3") ])
    ∧ get_path res [ KStr "properties" ]
      = Ok (VDict
          [ ("security-severity", VFloat 8.1);
            ("tags", VList
              [ VStr "security"; VStr "dependency"; VStr "vulnerability" ]);
            ("precision", VStr "very-high") ]).
Proof. exact (create_sarif_result_fields scenario_vuln eq_refl). Defined.

(** C6, as stated, fails: a vulnerability that is a mapping but whose
    [package] is a string gets no rule at all, the builder raises. *)
Lemma create_sarif_rule_raises_on_string_package :
  @create_sarif_rule str_of_constant
    (VDict [ ("advisory", VDict [ ("id", VStr "RUSTSEC-2023-0001") ]);
             ("package", VStr "foo") ])
  = Raise AttributeError.
Proof. reflexivity. Qed.

(** C6, amended: for every vulnerability that is a mapping in which
    [advisory], [package] and [cvss] are each absent or a mapping, the rule
    builder returns a record with id = advisory.id (default "UNKNOWN"), name
    and shortDescription.text = advisory.title (default "Unknown
    vulnerability"), fullDescription.text = advisory.description (default
    empty string), help.text = "Update N to a patched version" with N =
    package.name (default "package"), help.markdown = a heading with the
    title (default "Vulnerability"), the description as body and a
    references section with advisory.url (default empty string), and
    properties security-severity = cvss.score (default 5.0) with tags
    security, vulnerability. *)
Theorem create_sarif_rule_fields `{PyStr} (kvs : list (string * value)) :
  rule_typed kvs = true →
  ∃ rule,
    create_sarif_rule (VDict kvs) = Ok rule
    ∧ get_path rule [ KStr "id" ]
      = Ok (sub_field kvs "advisory" "id" (VStr "UNKNOWN"))
    ∧ get_path rule [ KStr "name" ]
      = Ok (sub_field kvs "advisory" "title" (VStr "Unknown vulnerability"))
    ∧ get_path rule [ KStr "shortDescription"; KStr "text" ]
      = Ok (sub_field kvs "advisory" "title" (VStr "Unknown vulnerability"))
    ∧ get_path rule [ KStr "fullDescription"; KStr "text" ]
      = Ok (sub_field kvs "advisory" "description" (VStr ""))
    ∧ get_path rule [ KStr "help"; KStr "text" ]
      = Ok (VStr
          ("Update "
           +:+ format_field (sub_field kvs "package" "name" (VStr "package"))
           +:+ " to a patched version"))
    ∧ get_path rule [ KStr "help"; KStr "markdown" ]
      = Ok (VStr
          ("## "
           +:+ format_field (sub_field kvs "advisory" "title" (VStr "Vulnerability"))
           +:+ nl +:+ nl
           +:+ format_field (sub_field kvs "advisory" "description" (VStr ""))
           +:+ nl +:+ nl +:+ "### References" +:+ nl +:+ "- "
           +:+ format_field (sub_field kvs "advisory" "url" (VStr ""))))
    ∧ get_path rule [ KStr "properties" ]
      = Ok (VDict
          [ ("security-severity", sub_field kvs "cvss" "score" (VFloat 5.0));
            ("tags", VList [ VStr "security"; VStr "vulnerability" ]) ]).
Proof.
  intros Ht. rewrite (create_sarif_rule_typed kvs Ht).
  eexists. split; [reflexivity|]. by repeat split.
Qed.

Lemma create_sarif_rule_fields_witness :
  ∃ rule,
    @create_sarif_rule str_of_constant (VDict scenario_vuln) = Ok rule
    ∧ get_path rule [ KStr "id" ] = Ok (VStr "RUSTSEC-2023-0001")
    ∧ get_path rule [ KStr "name" ] = Ok (VStr "Bad crate")
    ∧ get_path rule [ KStr "shortDescription"; KStr "text" ] = Ok (VStr "Bad crate")
    ∧ get_path rule [ KStr "fullDescription"; KStr "text" ] = Ok (VStr "desc")
    ∧ get_path rule [ KStr "help"; KStr "text" ]
      = Ok (VStr "Update foo to a patched version")
    ∧ get_path rule [ KStr "help"; KStr "markdown" ]
      = Ok (VStr
          ("## Bad crate" +:+ nl +:+ nl +:+ "desc" +:+ nl +:+ nl
           +:+ "### References" +:+ nl +:+ "- http://x"))
    ∧ get_path rule [ KStr "properties" ]
      = Ok (VDict
          [ ("security-severity", VFloat 8.1);
            ("tags", VList [ VStr "security"; VStr "vulnerability" ]) ]).
Proof. exact (@create_sarif_rule_fields str_of_constant scenario_vuln eq_refl). Defined.

(** ** The claims about the assembled document *)

(** C1: whenever a document is assembled, its rules array and its results
    array have the length of the input vulnerability list, and at every
    index the rule and the result are the ones the builders make from the
    vulnerability at that index: input order is kept and nothing is merged
    or dropped. *)
Theorem rules_results_follow_input `{PyStr} (audit_data doc : value) :
  convert_audit_to_sarif audit_data = Ok doc →
  ∃ vulns rules results,
    input_vulnerabilities audit_data = Ok vulns
    ∧ doc = sarif_document rules results
    ∧ get_path doc rules_path = Ok (VList rules)
    ∧ get_path doc results_path = Ok (VList results)
    ∧ length rules = length vulns
    ∧ length results = length vulns
    ∧ ∀ i vuln, vulns !! i = Some vuln →
        ∃ rule res,
          rules !! i = Some rule ∧ results !! i = Some res
          ∧ create_sarif_rule vuln = Ok rule
          ∧ create_sarif_result vuln = Ok res.
Proof.
  intros (vulns & rules & results & Hin & -> & Hr & Hs)%convert_audit_to_sarif_inv.
  exists vulns, rules, results.
  repeat split; try done.
  - symmetry. by eapply Forall2_length.
  - symmetry. by eapply Forall2_length.
  - intros i vuln Hi.
    destruct (Forall2_lookup_l _ _ _ _ _ Hr Hi) as (rule & ? & ?).
    destruct (Forall2_lookup_l _ _ _ _ _ Hs Hi) as (res & ? & ?).
    by exists rule, res.
Qed.

Lemma rules_results_follow_input_witness :
  ∃ vulns rules results,
    input_vulnerabilities scenario_report = Ok vulns
    ∧ scenario_sarif = sarif_document rules results
    ∧ get_path scenario_sarif rules_path = Ok (VList rules)
    ∧ get_path scenario_sarif results_path = Ok (VList results)
    ∧ length rules = length vulns
    ∧ length results = length vulns
    ∧ ∀ i vuln, vulns !! i = Some vuln →
        ∃ rule res,
          rules !! i = Some rule ∧ results !! i = Some res
          ∧ @create_sarif_rule str_of_constant vuln = Ok rule
          ∧ create_sarif_result vuln = Ok res.
Proof.
  exact (@rules_results_follow_input str_of_constant scenario_report
           scenario_sarif eq_refl).
Defined.

(** C4, as stated, fails: a report whose [vulnerabilities] value is not a
    mapping is not read as an empty list, the conversion raises. *)
Lemma convert_raises_on_null_vulnerabilities :
  @convert_audit_to_sarif str_of_constant
    (VDict [ ("vulnerabilities", VNone) ])
  = Raise AttributeError.
Proof. reflexivity. Qed.

(** C4, amended: for every input mapping in which the key [vulnerabilities]
    is absent, or is a mapping in which the key [list] is absent or holds an
    empty list, document assembly does not raise and produces the document
    with empty rules and results arrays and the fixed schema, version,
    tool driver and columnKind. *)
Theorem convert_without_vulnerabilities `{PyStr} (kvs : list (string * value)) :
  assoc "vulnerabilities" kvs = None
  ∨ (∃ section,
       assoc "vulnerabilities" kvs = Some (VDict section)
       ∧ (assoc "list" section = None ∨ assoc "list" section = Some (VList []))) →
  convert_audit_to_sarif (VDict kvs) = Ok (VDict
    [ ("$schema", VStr "https://json.schemastore.org/sarif-2.1.0.json");
      ("version", VStr "2.1.0");
      ("runs", VList
        [ VDict
            [ ("tool", VDict
                [ ("driver", VDict
                    [ ("name", VStr "cargo-audit");
                      ("version", VStr "0.18.0");
                      ("informationUri", VStr "https://github.com/RustSec/rustsec");
                      ("rules", VList []) ]) ]);
              ("results", VList []);
              ("columnKind", VStr "utf16CodeUnits") ] ]) ]).
Proof.
  unfold convert_audit_to_sarif, dict_get.
  intros [Hv|(section & Hv & [Hl|Hl])]; rewrite Hv; simpl; [done| |]; by rewrite Hl.
Qed.

Lemma convert_without_vulnerabilities_witness :
  @convert_audit_to_sarif str_of_constant
    (VDict [ ("database", VDict []); ("vulnerabilities", VDict [ ("found", VBool false) ]) ])
  = Ok (VDict
    [ ("$schema", VStr "https://json.schemastore.org/sarif-2.1.0.json");
      ("version", VStr "2.1.0");
      ("runs", VList
        [ VDict
            [ ("tool", VDict
                [ ("driver", VDict
                    [ ("name", VStr "cargo-audit");
                      ("version", VStr "0.18.0");
                      ("informationUri", VStr "https://github.com/RustSec/rustsec");
                      ("rules", VList []) ]) ]);
              ("results", VList []);
              ("columnKind", VStr "utf16CodeUnits") ] ]) ]).
Proof.
  apply (@convert_without_vulnerabilities str_of_constant).
  right. exists [ ("found", VBool false) ]. split; [reflexivity|]. by left.
Defined.



(** ** The command line *)

(** C7: when [sys.argv] does not hold exactly the program name and two
    arguments, [main] prints the usage line, exits with status 1, opens no
    file and leaves every file as it was. *)
Theorem main_usage `{PyStr} `{JsonLib} `{Stdout} (argv : list string) (w : world) :
  length argv ≠ 3 →
  main argv w
  = (1%Z,
     {| fs := fs w;
        opened := opened w;
        printed :=
          printed w ++ [ "Usage: audit-to-sarif.py <input.json> <output.sarif>" ] |}).
Proof.
  intros Hlen. unfold main.
  destruct (Nat.eqb_spec (length argv) 3) as [?|_]; [done|].
  reflexivity.
Qed.

Lemma main_usage_witness :
  @main str_of_constant rejecting_json ascii_stdout
    [ "audit-to-sarif.py"; "audit.json" ]
    {| fs := {| files := [ ("audit.json", "{}") ]; unwritable := [] |};
       opened := []; printed := [] |}
  = (1%Z,
     {| fs := {| files := [ ("audit.json", "{}") ]; unwritable := [] |};
        opened := [];
        printed := [ "Usage: audit-to-sarif.py <input.json> <output.sarif>" ] |}).
Proof.
  apply (@main_usage str_of_constant rejecting_json ascii_stdout).
  simpl. lia.
Defined.

(** ** The store: basic facts *)

#[local] Open Scope nat_scope.

Lemma run_bind {A B} (m : M A) (f : A → M B) (h : heap) :
  (m ≫= f) h
  = match m h with
    | (Done a, h') => f a h'
    | (Raised e, h') => (Raised e, h')
    | (Stuck, h') => (Stuck, h')
    end.
Proof. reflexivity. Qed.

Lemma run_bind_done {A B} (m : M A) (f : A → M B) (h h' : heap) (a : A) :
  m h = (Done a, h') → (m ≫= f) h = f a h'.
Proof. intros Hm. by rewrite run_bind, Hm. Qed.

Lemma run_bind_alloc {B} (c : cell) (f : hval → M B) (h : heap) :
  (alloc c ≫= f) h = f (HRef (length h)) (h ++ [c]).
Proof. reflexivity. Qed.

Lemma run_read (l : loc) (c : cell) (h : heap) :
  h !! l = Some c → read l h = (Done c, h).
Proof. unfold read. by intros ->. Qed.

Lemma run_write (l : loc) (c : cell) (h : heap) :
  l < length h → write l c h = (Done tt, <[l := c]> h).
Proof. unfold write. intros Hl. by rewrite decide_True. Qed.

(** *** Computations that only allocate *)

Lemma allocates_ret {A} (a : A) : allocates (mret a).
Proof. by intros h. Qed.

Lemma allocates_raise {A} (e : exn) : allocates (@raise A e).
Proof. by intros h. Qed.

Lemma allocates_stuck {A} : allocates (@stuck A).
Proof. by intros h. Qed.

Lemma allocates_alloc (c : cell) : allocates (alloc c).
Proof. intros h. simpl. by apply prefix_app_r. Qed.

Lemma allocates_read (l : loc) : allocates (read l).
Proof. intros h. unfold read. by case_match. Qed.

Lemma allocates_bind {A B} (m : M A) (f : A → M B) :
  allocates m → (∀ a, allocates (f a)) → allocates (m ≫= f).
Proof.
  intros Hm Hf h. rewrite run_bind.
  specialize (Hm h). destruct (m h) as [[a| |] h']; simpl in *; try done.
  by etrans; [|apply Hf].
Qed.

Lemma allocates_dict_get (d : hval) (k : string) (dflt : M hval) :
  allocates dflt → allocates (Heap.dict_get d k dflt).
Proof.
  intros Hd. destruct d; try apply allocates_raise.
  apply allocates_bind; [apply allocates_read|].
  intros [|]; [apply allocates_raise|].
  apply allocates_bind; [done|]. intros dv.
  apply allocates_bind; [apply allocates_read|].
  intros [|]; [apply allocates_stuck|apply allocates_ret].
Qed.

Lemma allocates_str_lower (s : hval) : allocates (Heap.str_lower s).
Proof. destruct s; try apply allocates_raise. apply allocates_ret. Qed.

Lemma allocates_format_field `{HeapStr} (x : hval) :
  allocates (Heap.format_field x).
Proof. intros h. by destruct x. Qed.

Lemma allocates_subscript (x : hval) (k : key) : allocates (Heap.subscript x k).
Proof.
  destruct x, k; try apply allocates_raise.
  - simpl. destruct (chars s !! i); [apply allocates_ret|apply allocates_raise].
  - apply allocates_bind; [apply allocates_read|].
    intros [|entries]; [apply allocates_raise|].
    destruct (assoc s entries); [apply allocates_ret|apply allocates_raise].
  - apply allocates_bind; [apply allocates_read|].
    intros [items|]; [|apply allocates_raise].
    destruct (items !! i); [apply allocates_ret|apply allocates_raise].
Qed.

Lemma allocates_get_path (p : list key) (x : hval) : allocates (Heap.get_path x p).
Proof.
  revert x. induction p as [|k p IH]; intros x; simpl.
  - apply allocates_ret.
  - apply allocates_bind; [apply allocates_subscript|done].
Qed.

Create HintDb allocates.
#[local] Hint Resolve allocates_ret allocates_raise allocates_stuck
  allocates_alloc allocates_read allocates_dict_get allocates_str_lower
  allocates_subscript allocates_get_path : allocates.

#[local] Ltac solve_allocates :=
  repeat first
    [ apply allocates_bind; [solve [auto with allocates]|intros ?]
    | solve [auto with allocates] ].

Lemma allocates_convert_severity (severity : hval) :
  allocates (Heap.convert_severity severity).
Proof. unfold Heap.convert_severity. solve_allocates. Qed.

#[local] Hint Resolve allocates_convert_severity : allocates.

Lemma allocates_create_sarif_result (vuln : hval) :
  allocates (Heap.create_sarif_result vuln).
Proof. unfold Heap.create_sarif_result. solve_allocates. Qed.

Lemma allocates_create_sarif_rule `{HeapStr} (vuln : hval) :
  allocates (Heap.create_sarif_rule vuln).
Proof.
  unfold Heap.create_sarif_rule.
  repeat first
    [ apply allocates_bind;
        [first [apply allocates_format_field|solve [auto with allocates]]|intros ?]
    | solve [auto with allocates] ].
Qed.

(** *** What is seen of a store *)

Lemma visible_lookup (hidden : list loc) (h : heap) (l : loc) (c : cell) :
  visible hidden h l = Some c → h !! l = Some c.
Proof. unfold visible. by case_decide. Qed.

Lemma visible_nil (h : heap) (l : loc) : visible [] h l = h !! l.
Proof. unfold visible. rewrite decide_False; [done|]. by intros ?%elem_of_nil. Qed.

Lemma visible_prefix (hidden : list loc) (h h' : heap) :
  h `prefix_of` h' → visible hidden h ⊑ visible hidden h'.
Proof.
  intros Hpre l c. unfold visible. case_decide; [done|].
  intros Hl. by eapply prefix_lookup_Some.
Qed.

Lemma visible_all (hidden : list loc) (h : heap) :
  visible hidden h ⊑ visible [] h.
Proof. intros l c Hl. rewrite visible_nil. by eapply visible_lookup. Qed.

Lemma visible_hide (hidden : list loc) (h h' : heap) :
  h `prefix_of` h' →
  Forall (λ l, (length h ≤ l)%nat) hidden →
  visible [] h ⊑ visible hidden h'.
Proof.
  intros Hpre Hhid l c. rewrite visible_nil. intros Hl.
  unfold visible. rewrite decide_False.
  - by eapply prefix_lookup_Some.
  - intros Hin. rewrite Forall_forall in Hhid. apply Hhid in Hin.
    apply lookup_lt_Some in Hl. lia.
Qed.

Lemma visible_insert (hidden : list loc) (h : heap) (l : loc) (c : cell) :
  l ∈ hidden → visible hidden h ⊑ visible hidden (<[l := c]> h).
Proof.
  intros Hin l' c'. unfold visible. case_decide as Hl'; [done|].
  rewrite list_lookup_insert_ne; [done|]. by intros ->.
Qed.

Lemma visible_alloc (hidden : list loc) (h : heap) (c : cell) :
  below hidden h → visible hidden (h ++ [c]) (length h) = Some c.
Proof.
  intros Hbelow. unfold visible. rewrite decide_False.
  - by rewrite lookup_app_r, Nat.sub_diag.
  - intros Hin. unfold below in Hbelow. rewrite Forall_forall in Hbelow.
    apply Hbelow in Hin. lia.
Qed.

Lemma below_prefix (hidden : list loc) (h h' : heap) :
  h `prefix_of` h' → below hidden h → below hidden h'.
Proof.
  intros Hpre%prefix_length. unfold below. intros Hb.
  eapply Forall_impl; [exact Hb|]. intros l; simpl. lia.
Qed.

Lemma below_nil (h : heap) : below [] h.
Proof. constructor. Qed.

#[export] Instance store_included_preorder : PreOrder (⊑@{store}).
Proof.
  split.
  - by intros σ l c.
  - intros σ1 σ2 σ3 H12 H23 l c Hl. by apply H23, H12.
Qed.

(** *** What a stored object stands for *)

Lemma repr_mono (σ σ' : store) (x : hval) (v : value) :
  σ ⊑ σ' → repr σ x v → repr σ' x v.
Proof.
  intros Hsub Hr. revert x v Hr.
  apply (repr_mut σ
    (λ x v _, repr σ' x v)
    (λ items xs _, repr_items σ' items xs)
    (λ entries kvs _, repr_entries σ' entries kvs));
    try by constructor.
  - intros l items xs Hl _ IH. apply repr_list with items; [by apply Hsub|done].
  - intros l entries kvs Hl _ IH. apply repr_dict with entries; [by apply Hsub|done].
Qed.

Lemma repr_items_Forall2 (σ : store) (items : list hval) (xs : list value) :
  repr_items σ items xs ↔ Forall2 (repr σ) items xs.
Proof.
  split.
  - induction 1; by constructor.
  - induction 1; by constructor.
Qed.

Lemma repr_entries_assoc (σ : store) entries kvs (k : string) :
  repr_entries σ entries kvs →
  match assoc k entries, assoc k kvs with
  | Some x, Some v => repr σ x v
  | None, None => True
  | _, _ => False
  end.
Proof.
  induction 1 as [|k' x v entries kvs Hx _ IH]; simpl; [done|].
  by destruct (String.eqb k k').
Qed.

Lemma repr_entries_default (σ : store) entries kvs (k : string) dx dv :
  repr_entries σ entries kvs →
  repr σ dx dv →
  repr σ (default dx (assoc k entries)) (default dv (assoc k kvs)).
Proof.
  intros He Hd. apply (repr_entries_assoc _ _ _ k) in He.
  by destruct (assoc k entries), (assoc k kvs).
Qed.

Lemma repr_entries_keys (σ : store) entries kvs :
  repr_entries σ entries kvs →
  Forall2 (repr σ) (map (λ kv, HStr kv.1) entries) (map (λ kv, VStr kv.1) kvs).
Proof. induction 1; simpl; constructor; [constructor|done]. Qed.

Lemma repr_chars (σ : store) (s : string) :
  Forall2 (repr σ) (map HStr (chars s)) (map VStr (chars s)).
Proof. induction (chars s); simpl; constructor; [constructor|done]. Qed.

(** [reify] computes a tree the object stands for. *)
Lemma reify_represents (fuel : nat) (h : heap) (x : hval) (v : value) :
  reify fuel h x = Some v → represents h x v.
Proof.
  unfold represents. revert x v.
  induction fuel as [|fuel IH]; intros x v; simpl; [done|].
  destruct x as [| | | | |l]; try (intros [= <-]; by constructor).
  destruct (h !! l) as [[items|entries]|] eqn:Hl; [| |done].
  - destruct (mapM (reify fuel h) items) as [xs|] eqn:Hxs; [|done].
    intros [= <-]. apply repr_list with items; [by rewrite visible_nil|].
    apply repr_items_Forall2. apply mapM_Some_1 in Hxs.
    eapply Forall2_impl; [done|]. intros ??. apply IH.
  - destruct (mapM _ entries) as [kvs|] eqn:Hkvs; [|done].
    intros [= <-]. apply repr_dict with entries; [by rewrite visible_nil|].
    apply mapM_Some_1 in Hkvs. clear Hl.
    induction Hkvs as [|[k x] [k' u] entries kvs Hkx _ IHe]; [constructor|].
    simpl in Hkx. destruct (reify fuel h x) as [u'|] eqn:Hx; [|done].
    simpl in Hkx. injection Hkx as <- <-. constructor; [by apply IH|done].
Qed.

(** ** The loop writes to the two arrays of the document only *)

Lemma prefix_insert (h0 h : heap) (l : loc) (c : cell) :
  h0 `prefix_of` h → length h0 ≤ l → h0 `prefix_of` <[l := c]> h.
Proof.
  intros [k ->] Hl. rewrite insert_app_r_alt by done. by apply prefix_app_r.
Qed.

Lemma skeleton_prefix base rules results (h h' : heap) :
  skeleton base rules results h → h `prefix_of` h' →
  skeleton base rules results h'.
Proof.
  unfold skeleton. intros Hs Hpre.
  repeat match goal with
  | H : _ ∧ _ |- _ => destruct H
  end.
  repeat split; by eapply prefix_lookup_Some.
Qed.

Lemma skeleton_length base rules results (h : heap) :
  skeleton base rules results h → base + 6 < length h.
Proof. intros (_ & _ & _ & _ & _ & _ & Hl). by eapply lookup_lt_Some. Qed.

Lemma skeleton_set_rules base rules rules' results (h : heap) :
  skeleton base rules results h →
  skeleton base rules' results (<[base := CList rules']> h).
Proof.
  intros Hs. pose proof (skeleton_length _ _ _ _ Hs) as Hlen.
  destruct Hs as (H0 & H1 & H2 & H3 & H4 & H5 & H6).
  repeat split; try (rewrite list_lookup_insert_ne by lia; assumption).
  apply list_lookup_insert_eq. lia.
Qed.

Lemma skeleton_set_results base rules results results' (h : heap) :
  skeleton base rules results h →
  skeleton base rules results' (<[base + 3 := CList results']> h).
Proof.
  intros Hs. pose proof (skeleton_length _ _ _ _ Hs) as Hlen.
  destruct Hs as (H0 & H1 & H2 & H3 & H4 & H5 & H6).
  repeat split; try (rewrite list_lookup_insert_ne by lia; assumption).
  apply list_lookup_insert_eq. lia.
Qed.

Lemma skeleton_rules_path base rules results (h : heap) :
  skeleton base rules results h →
  Heap.get_path (HRef (base + 6)) rules_path h = (Done (HRef base), h).
Proof.
  intros (H0 & H1 & H2 & H3 & H4 & H5 & H6).
  unfold rules_path, Heap.get_path, Heap.subscript.
  rewrite (run_bind_done _ _ h h (HRef (base + 5)));
    [|by rewrite (run_bind_done _ _ h h _ (run_read _ _ _ H6))].
  rewrite (run_bind_done _ _ h h (HRef (base + 4)));
    [|by rewrite (run_bind_done _ _ h h _ (run_read _ _ _ H5))].
  rewrite (run_bind_done _ _ h h (HRef (base + 2)));
    [|by rewrite (run_bind_done _ _ h h _ (run_read _ _ _ H4))].
  rewrite (run_bind_done _ _ h h (HRef (base + 1)));
    [|by rewrite (run_bind_done _ _ h h _ (run_read _ _ _ H2))].
  rewrite (run_bind_done _ _ h h (HRef base));
    [|by rewrite (run_bind_done _ _ h h _ (run_read _ _ _ H1))].
  reflexivity.
Qed.

Lemma skeleton_results_path base rules results (h : heap) :
  skeleton base rules results h →
  Heap.get_path (HRef (base + 6)) results_path h = (Done (HRef (base + 3)), h).
Proof.
  intros (H0 & H1 & H2 & H3 & H4 & H5 & H6).
  unfold results_path, Heap.get_path, Heap.subscript.
  rewrite (run_bind_done _ _ h h (HRef (base + 5)));
    [|by rewrite (run_bind_done _ _ h h _ (run_read _ _ _ H6))].
  rewrite (run_bind_done _ _ h h (HRef (base + 4)));
    [|by rewrite (run_bind_done _ _ h h _ (run_read _ _ _ H5))].
  rewrite (run_bind_done _ _ h h (HRef (base + 3)));
    [|by rewrite (run_bind_done _ _ h h _ (run_read _ _ _ H4))].
  reflexivity.
Qed.

(** [append] extends the list in place, after its argument has run. *)
Lemma run_list_append (l : loc) (items : list hval) (arg : M hval) (h : heap) :
  h !! l = Some (CList items) →
  allocates arg →
  Heap.list_append (HRef l) arg h
  = match arg h with
    | (Done x, h1) => (Done tt, <[l := CList (items ++ [x])]> h1)
    | (Raised e, h1) => (Raised e, h1)
    | (Stuck, h1) => (Stuck, h1)
    end.
Proof.
  intros Hl Harg. unfold Heap.list_append.
  rewrite (run_bind_done _ _ h h _ (run_read _ _ _ Hl)).
  rewrite run_bind. specialize (Harg h).
  destruct (arg h) as [[x| |] h1]; simpl in *; try done.
  assert (h1 !! l = Some (CList items)) as Hl1 by by eapply prefix_lookup_Some.
  rewrite (run_bind_done _ _ h1 h1 _ (run_read _ _ _ Hl1)).
  apply run_write. by eapply lookup_lt_Some.
Qed.

(** One turn of the loop, in terms of the two builders. *)
Lemma run_loop_body `{HeapStr} base rules results (vuln : hval) (h : heap) :
  skeleton base rules results h →
  Heap.loop_body (HRef (base + 6)) vuln h
  = match Heap.create_sarif_rule vuln h with
    | (Done rule, h1) =>
        match Heap.create_sarif_result vuln (<[base := CList (rules ++ [rule])]> h1) with
        | (Done res, h2) => (Done tt, <[base + 3 := CList (results ++ [res])]> h2)
        | (Raised e, h2) => (Raised e, h2)
        | (Stuck, h2) => (Stuck, h2)
        end
    | (Raised e, h1) => (Raised e, h1)
    | (Stuck, h1) => (Stuck, h1)
    end.
Proof.
  intros Hs. unfold Heap.loop_body.
  rewrite (run_bind_done _ _ h h _ (skeleton_rules_path _ _ _ _ Hs)).
  rewrite run_bind.
  rewrite (run_list_append base rules) by
    first [apply Hs | apply allocates_create_sarif_rule].
  pose proof (allocates_create_sarif_rule vuln h) as Hpre.
  destruct (Heap.create_sarif_rule vuln h) as [[rule| |] h1]; simpl in Hpre; try done.
  assert (skeleton base (rules ++ [rule]) results
            (<[base := CList (rules ++ [rule])]> h1)) as Hs1.
  { apply skeleton_set_rules with rules. by eapply skeleton_prefix. }
  rewrite (run_bind_done _ _ _ _ _ (skeleton_results_path _ _ _ _ Hs1)).
  rewrite (run_list_append (base + 3) results) by
    first [apply Hs1 | apply allocates_create_sarif_result].
  reflexivity.
Qed.





Lemma skeleton_initial (h : heap) :
  skeleton (length h) [] [] (h ++ skeleton_cells (length h)).
Proof.
  unfold skeleton, skeleton_cells.
  repeat split; rewrite lookup_app_r by lia;
    match goal with
    | |- _ !! ?i = _ => by replace i with 0 by lia
    | |- _ !! ?i = _ => by replace i with 1 by lia
    | |- _ !! ?i = _ => by replace i with 2 by lia
    | |- _ !! ?i = _ => by replace i with 3 by lia
    | |- _ !! ?i = _ => by replace i with 4 by lia
    | |- _ !! ?i = _ => by replace i with 5 by lia
    | |- _ !! ?i = _ => by replace i with 6 by lia
    end.
Qed.

(** The conversion, in terms of its loop. *)
Lemma run_convert_audit_to_sarif `{HeapStr} (audit_data : hval) (h : heap) :
  Heap.convert_audit_to_sarif audit_data h
  = match input_list audit_data h with
    | (Done vulnerabilities, h1) =>
        match Heap.for_in vulnerabilities
                (Heap.loop_body (HRef (length h1 + 6)))
                (h1 ++ skeleton_cells (length h1)) with
        | (Done _, h2) => (Done (HRef (length h1 + 6)), h2)
        | (Raised e, h2) => (Raised e, h2)
        | (Stuck, h2) => (Stuck, h2)
        end
    | (Raised e, h1) => (Raised e, h1)
    | (Stuck, h1) => (Stuck, h1)
    end.
Proof.
  unfold Heap.convert_audit_to_sarif, input_list.
  rewrite !run_bind.
  destruct (Heap.dict_get audit_data _ _ h) as [[section| |] h0]; try done.
  rewrite !run_bind.
  destruct (Heap.dict_get section _ _ h0) as [[vulnerabilities| |] h1]; try done.
  repeat (rewrite run_bind_alloc; cbn beta).
  rewrite !length_app. cbn [length].
  rewrite <- !app_assoc. cbn [app].
  rewrite <- !Nat.add_assoc. cbn [Nat.add].
  rewrite run_bind. unfold skeleton_cells.
  by destruct (Heap.for_in _ _ _) as [[[]| |] h2].
Qed.

Lemma allocates_input_list (audit_data : hval) : allocates (input_list audit_data).
Proof. unfold input_list. solve_allocates. Qed.


(** When the conversion returns, it returns an object that was not in the
    store. *)
Lemma convert_audit_to_sarif_fresh `{HeapStr} (audit_data doc : hval) (h : heap) :
  (Heap.convert_audit_to_sarif audit_data h).1 = Done doc →
  ∃ l, doc = HRef l ∧ length h ≤ l.
Proof.
  rewrite run_convert_audit_to_sarif.
  pose proof (allocates_input_list audit_data h) as Hpre%prefix_length.
  destruct (input_list audit_data h) as [[vulnerabilities| |] h1];
    simpl in Hpre; try done.
  destruct (Heap.for_in _ _ _) as [[[]| |] h2]; try done.
  intros [= <-]. eexists. split; [done|]. lia.
Qed.

(** ** The script on the store against the script on trees *)

Section Steps.
Context (hidden : list loc) (h0 : heap).

(** Both sides raise. *)
Lemma simulates_raised (h : heap) (e : exn) :
  h0 `prefix_of` h → simulates hidden h0 (Raised e, h) (Raise e).
Proof. by split. Qed.

(** A new object on the store's side. *)
Lemma simulates_alloc (h : heap) (c : cell) (f : hval → M hval) (r : result value) :
  h0 `prefix_of` h →
  below hidden h →
  (∀ h' l,
     h0 `prefix_of` h' → below hidden h' →
     visible hidden h ⊑ visible hidden h' →
     visible hidden h' l = Some c →
     simulates hidden h0 (f (HRef l) h') r) →
  simulates hidden h0 ((alloc c ≫= f) h) r.
Proof.
  intros Hpre Hbelow Hk. rewrite run_bind_alloc.
  assert (h `prefix_of` h ++ [c]) as Hext by by apply prefix_app_r.
  apply Hk.
  - by etrans.
  - by eapply below_prefix.
  - by apply visible_prefix.
  - by apply visible_alloc.
Qed.

(** The last object a builder allocates is its result. *)
Lemma simulates_alloc_last (h : heap) (c : cell) (v : value) :
  h0 `prefix_of` h →
  below hidden h →
  (∀ h' l,
     visible hidden h ⊑ visible hidden h' →
     visible hidden h' l = Some c →
     repr (visible hidden h') (HRef l) v) →
  simulates hidden h0 (alloc c h) (Ok v).
Proof.
  intros Hpre Hbelow Hk.
  assert (h `prefix_of` h ++ [c]) as Hext by by apply prefix_app_r.
  split; simpl; [by etrans|].
  apply Hk; [by apply visible_prefix|by apply visible_alloc].
Qed.

(** [d.get(k, dflt)] with a constant for [dflt]. *)
Lemma simulates_get (h : heap) (d : hval) (v : value) (k : string)
    (dx : hval) (dv : value) (f : hval → M hval) (g : value → result value) :
  h0 `prefix_of` h →
  repr (visible hidden h) d v →
  repr (visible hidden h) dx dv →
  (∀ x u, repr (visible hidden h) x u → simulates hidden h0 (f x h) (g u)) →
  simulates hidden h0
    ((Heap.dict_get d k (mret dx) ≫= f) h) (dict_get v k dv ≫= g).
Proof.
  intros Hpre Hd Hdx Hk.
  inversion Hd as [| | | | |l items xs Hl Hitems|l entries kvs Hl Hentries];
    subst; try by apply simulates_raised.
  - apply visible_lookup in Hl. unfold Heap.dict_get.
    rewrite run_bind, (run_bind_done _ _ h h _ (run_read _ _ _ Hl)).
    by apply simulates_raised.
  - apply visible_lookup in Hl. unfold Heap.dict_get.
    rewrite run_bind, (run_bind_done _ _ h h _ (run_read _ _ _ Hl)).
    rewrite (run_bind_done _ _ h h dx) by done.
    rewrite (run_bind_done _ _ h h _ (run_read _ _ _ Hl)).
    apply Hk. by apply repr_entries_default.
Qed.

(** [d.get(k, dflt)] with a display, [{}] or [[]], for [dflt]. *)
Lemma simulates_get_display (h : heap) (d : hval) (v : value) (k : string)
    (c : cell) (dv : value) (f : hval → M hval) (g : value → result value) :
  h0 `prefix_of` h →
  below hidden h →
  repr (visible hidden h) d v →
  (∀ σ l, σ l = Some c → repr σ (HRef l) dv) →
  (∀ h' x u,
     h0 `prefix_of` h' → below hidden h' →
     visible hidden h ⊑ visible hidden h' →
     repr (visible hidden h') x u →
     simulates hidden h0 (f x h') (g u)) →
  simulates hidden h0
    ((Heap.dict_get d k (alloc c) ≫= f) h) (dict_get v k dv ≫= g).
Proof.
  intros Hpre Hbelow Hd Hc Hk.
  inversion Hd as [| | | | |l items xs Hl Hitems|l entries kvs Hl Hentries];
    subst; try by apply simulates_raised.
  - apply visible_lookup in Hl. unfold Heap.dict_get.
    rewrite run_bind, (run_bind_done _ _ h h _ (run_read _ _ _ Hl)).
    by apply simulates_raised.
  - assert (h `prefix_of` h ++ [c]) as Hext by by apply prefix_app_r.
    pose proof (visible_prefix hidden _ _ Hext) as Hsub.
    pose proof (visible_lookup _ _ _ _ Hl) as Hl0.
    pose proof (visible_lookup _ _ _ _ (Hsub _ _ Hl)) as Hl1.
    unfold Heap.dict_get.
    rewrite run_bind, (run_bind_done _ _ h h _ (run_read _ _ _ Hl0)).
    rewrite run_bind_alloc.
    rewrite (run_bind_done _ _ _ _ _ (run_read _ _ _ Hl1)).
    apply Hk.
    + by etrans.
    + by eapply below_prefix.
    + done.
    + simpl. apply repr_entries_default.
      * revert Hentries. clear -Hsub. induction 1; constructor; [|done].
        by eapply repr_mono.
      * apply Hc. by apply visible_alloc.
Qed.

Lemma assoc_map_snd {A B} (f : A → B) (k : string) (kvs : list (string * A)) :
  assoc k (map (λ kv, (kv.1, f kv.2)) kvs) = f <$> assoc k kvs.
Proof.
  induction kvs as [|[k' a] kvs IH]; simpl; [done|].
  by destruct (String.eqb k k').
Qed.

Lemma simulates_convert_severity (h : heap) (severity : hval) (v : value)
    (f : hval → M hval) (g : value → result value) :
  h0 `prefix_of` h →
  below hidden h →
  repr (visible hidden h) severity v →
  (∀ h' x u,
     h0 `prefix_of` h' → below hidden h' →
     visible hidden h ⊑ visible hidden h' →
     repr (visible hidden h') x u →
     simulates hidden h0 (f x h') (g u)) →
  simulates hidden h0
    ((Heap.convert_severity severity ≫= f) h) (convert_severity v ≫= g).
Proof.
  intros Hpre Hbelow Hs Hk.
  assert (h `prefix_of` h ++ [CDict (map (λ kv, (kv.1, HStr kv.2)) severity_map)])
    as Hext by by apply prefix_app_r.
  unfold Heap.convert_severity.
  rewrite run_bind, run_bind_alloc.
  inversion Hs; subst; try (apply simulates_raised; by etrans).
  - change (convert_severity (VStr s))
      with (Ok (VStr (default "warning" (assoc (lower s) severity_map)))).
    rewrite (run_bind_done _ _ _ _ (lower s)) by done.
    unfold Heap.dict_get.
    assert ((h ++ [CDict (map (λ kv, (kv.1, HStr kv.2)) severity_map)]) !! length h
            = Some (CDict (map (λ kv, (kv.1, HStr kv.2)) severity_map))) as Hl.
    { by rewrite lookup_app_r, Nat.sub_diag. }
    rewrite (run_bind_done _ _ _ _ _ (run_read _ _ _ Hl)).
    rewrite (run_bind_done _ _ _ _ (HStr "warning")) by done.
    rewrite (run_bind_done _ _ _ _ _ (run_read _ _ _ Hl)).
    rewrite assoc_map_snd.
    generalize (assoc (lower s) severity_map). intros level. simpl.
    apply Hk.
    + by etrans.
    + by eapply below_prefix.
    + by apply visible_prefix.
    + destruct level; constructor.
Qed.

(** An f-string field. *)
Lemma simulates_format `{PyStr} `{HeapStr} `{!StrAgree}
    (h : heap) (x : hval) (u : value) (f : string → M hval) (r : result value) :
  repr (visible hidden h) x u →
  simulates hidden h0 (f (format_field u) h) r →
  simulates hidden h0 ((Heap.format_field x ≫= f) h) r.
Proof.
  intros Hx Hk.
  assert (Heap.format_field x h = (Done (format_field u), h)) as Hrun.
  { assert (represents h x u) as Hrep.
    { unfold represents. eapply repr_mono; [apply visible_all|done]. }
    inversion Hx; subst; simpl; try done;
      unfold Heap.format_field; by rewrite (str_agree _ _ _ Hrep). }
  by rewrite (run_bind_done _ _ _ _ _ Hrun).
Qed.

End Steps.

(** *** The builders *)

#[local] Ltac lift Hsub :=
  repeat match goal with
  | H : repr (visible _ ?h) _ _ |- _ =>
      lazymatch type of Hsub with
      | visible _ h ⊑ _ => apply (repr_mono _ _ _ _ Hsub) in H
      end
  | H : visible _ ?h _ = Some _ |- _ =>
      lazymatch type of Hsub with
      | visible _ h ⊑ _ => apply Hsub in H
      end
  end.

#[local] Ltac solve_repr :=
  first
    [ assumption
    | apply repr_none | apply repr_bool | apply repr_int
    | apply repr_float | apply repr_str
    | eapply repr_dict; [eassumption|solve_repr_entries]
    | eapply repr_list; [eassumption|solve_repr_items] ]
with solve_repr_entries :=
  first
    [ apply repr_entries_nil
    | apply repr_entries_cons; [solve_repr|solve_repr_entries] ]
with solve_repr_items :=
  first
    [ apply repr_items_nil
    | apply repr_items_cons; [solve_repr|solve_repr_items] ].

#[local] Ltac sim_step :=
  cbn beta;
  lazymatch goal with
  | |- simulates _ _ ((alloc _ ≫= _) _) _ =>
      apply simulates_alloc; [assumption|assumption|];
      let Hsub := fresh "Hsub" in
      intros ? ? ? ? Hsub ?; lift Hsub; clear Hsub
  | |- simulates _ _ ((Heap.dict_get _ _ (mret _) ≫= _) _) _ =>
      eapply simulates_get; [assumption|eassumption|solve_repr|];
      intros ? ? ?
  | |- simulates _ _ ((Heap.dict_get _ _ (alloc _) ≫= _) _) _ =>
      eapply simulates_get_display;
        [assumption|assumption|eassumption
        |intros ? ? ?; econstructor; [eassumption|constructor]|];
      let Hsub := fresh "Hsub" in
      intros ? ? ? ? ? Hsub ?; lift Hsub; clear Hsub
  | |- simulates _ _ ((Heap.convert_severity _ ≫= _) _) _ =>
      eapply simulates_convert_severity; [assumption|assumption|eassumption|];
      let Hsub := fresh "Hsub" in
      intros ? ? ? ? ? Hsub ?; lift Hsub; clear Hsub
  | |- simulates _ _ ((Heap.format_field _ ≫= _) _) _ =>
      eapply simulates_format; [exact _|eassumption|]
  | |- simulates _ _ (alloc _ _) (Ok _) =>
      apply simulates_alloc_last; [assumption|assumption|];
      let Hsub := fresh "Hsub" in
      intros ? ? Hsub ?; lift Hsub; clear Hsub; solve_repr
  end.

Lemma simulates_create_sarif_result (hidden : list loc) (h : heap)
    (vuln : hval) (v : value) :
  below hidden h →
  repr (visible hidden h) vuln v →
  simulates hidden h (Heap.create_sarif_result vuln h) (create_sarif_result v).
Proof.
  intros Hbelow Hvuln. assert (h `prefix_of` h) as Hpre by done.
  unfold Heap.create_sarif_result, create_sarif_result.
  repeat sim_step.
Qed.

Lemma simulates_create_sarif_rule `{PyStr} `{HeapStr} `{!StrAgree}
    (hidden : list loc) (h : heap) (vuln : hval) (v : value) :
  below hidden h →
  repr (visible hidden h) vuln v →
  simulates hidden h (Heap.create_sarif_rule vuln h) (create_sarif_rule v).
Proof.
  intros Hbelow Hvuln. assert (h `prefix_of` h) as Hpre by done.
  unfold Heap.create_sarif_rule, create_sarif_rule.
  repeat sim_step.
Qed.

(** *** The loop *)

Section Loop.
Context `{PyStr} `{HeapStr} `{!StrAgree}.
Context (h0 : heap) (base : loc).
Context (Hbase : length h0 ≤ base).

Lemma loop_state_below rs ss rules results (h : heap) :
  loop_state base rs ss rules results h → below (arrays base) h.
Proof.
  intros [Hs%skeleton_length _]. unfold below, arrays.
  repeat constructor; lia.
Qed.

Lemma Forall2_repr_mono (σ σ' : store) xs vs :
  σ ⊑ σ' → Forall2 (repr σ) xs vs → Forall2 (repr σ') xs vs.
Proof.
  intros Hsub Hf. eapply Forall2_impl; [exact Hf|].
  intros x v. by apply repr_mono.
Qed.

(** One turn. *)
Lemma loop_body_simulates rs ss rules results (h : heap) (vuln : hval) (v : value) :
  h0 `prefix_of` h →
  loop_state base rs ss rules results h →
  repr (visible (arrays base) h) vuln v →
  loop_simulates h0 base
    (Heap.loop_body (HRef (base + 6)) vuln h)
    (sarif1 ← append_at (sarif_document rules results) rules_path
                (create_sarif_rule v);
     append_at sarif1 results_path (create_sarif_result v))
  ∧ visible (arrays base) h
    ⊑ visible (arrays base) (Heap.loop_body (HRef (base + 6)) vuln h).2.
Proof.
  intros Hpre Hstate Hvuln.
  pose proof (loop_state_below _ _ _ _ _ Hstate) as Hbelow.
  destruct Hstate as (Hskel & Hrs & Hss).
  rewrite (run_loop_body _ _ _ _ _ Hskel), append_at_rules.
  destruct (simulates_create_sarif_rule _ _ _ _ Hbelow Hvuln) as [Hpre1 Hsim1].
  destruct (Heap.create_sarif_rule vuln h) as [[rule_x| |] h1],
    (create_sarif_rule v) as [rule|e1]; simpl in Hpre1, Hsim1; try done.
  2: { subst. split; [split; [by etrans|done]|by apply visible_prefix]. }
  set (h1' := <[base := CList (rs ++ [rule_x])]> h1).
  assert (visible (arrays base) h ⊑ visible (arrays base) h1') as Hsub1.
  { etrans; [by apply visible_prefix|].
    apply visible_insert. unfold arrays. rewrite !elem_of_cons. tauto. }
  assert (visible (arrays base) h1 ⊑ visible (arrays base) h1') as Hsub1'.
  { apply visible_insert. unfold arrays. rewrite !elem_of_cons. tauto. }
  assert (skeleton base (rs ++ [rule_x]) ss h1') as Hskel1.
  { apply skeleton_set_rules with rs. by eapply skeleton_prefix. }
  assert (below (arrays base) h1') as Hbelow1.
  { apply skeleton_length in Hskel1. unfold below, arrays.
    repeat constructor; lia. }
  assert (h0 `prefix_of` h1') as Hpre1'.
  { apply prefix_insert; [by etrans|done]. }
  cbn [mbind result_bind]. rewrite append_at_results.
  destruct (simulates_create_sarif_result _ _ _ _ Hbelow1
              (repr_mono _ _ _ _ Hsub1 Hvuln)) as [Hpre2 Hsim2].
  destruct (Heap.create_sarif_result vuln h1') as [[res_x| |] h2],
    (create_sarif_result v) as [res|e2]; simpl in Hpre2, Hsim2; try done.
  2: { subst. split; [split; [by etrans|done]|].
       etrans; [exact Hsub1|]. by apply visible_prefix. }
  set (h2' := <[base + 3 := CList (ss ++ [res_x])]> h2).
  assert (visible (arrays base) h2 ⊑ visible (arrays base) h2') as Hsub2'.
  { apply visible_insert. unfold arrays. rewrite !elem_of_cons. tauto. }
  assert (visible (arrays base) h1' ⊑ visible (arrays base) h2') as Hsub2.
  { etrans; [by apply visible_prefix|done]. }
  split; [split|]; simpl.
  - apply prefix_insert; [by etrans|lia].
  - exists (rs ++ [rule_x]), (ss ++ [res_x]), (rules ++ [rule]), (results ++ [res]).
    split; [done|]. split; [|split].
    + apply skeleton_set_results with ss. by eapply skeleton_prefix.
    + apply Forall2_app.
      * eapply Forall2_repr_mono; [|exact Hrs]. by etrans.
      * repeat constructor. eapply repr_mono; [|exact Hsim1].
        etrans; [exact Hsub1'|exact Hsub2].
    + apply Forall2_app.
      * eapply Forall2_repr_mono; [|exact Hss]. by etrans.
      * repeat constructor. exact (repr_mono _ _ _ _ Hsub2' Hsim2).
  - by etrans.
Qed.

Lemma for_each_vuln_cons (v : value) (vs : list value) (sarif : value) :
  for_each_vuln (v :: vs) sarif
  = sarif2 ← (sarif1 ← append_at sarif rules_path (create_sarif_rule v);
              append_at sarif1 results_path (create_sarif_result v));
    for_each_vuln vs sarif2.
Proof. simpl. by destruct (append_at sarif rules_path _). Qed.

(** A loop over objects fixed at its start. *)
Lemma for_each_simulates xs vs rs ss rules results (h : heap) :
  h0 `prefix_of` h →
  loop_state base rs ss rules results h →
  Forall2 (repr (visible (arrays base) h)) xs vs →
  loop_simulates h0 base
    (Heap.for_each xs (Heap.loop_body (HRef (base + 6))) h)
    (for_each_vuln vs (sarif_document rules results)).
Proof.
  intros Hpre Hstate Hxs. revert rs ss rules results h Hpre Hstate Hxs.
  revert vs. induction xs as [|x xs IH]; intros vs rs ss rules results h Hpre Hstate Hxs.
  - apply Forall2_nil_inv_l in Hxs as ->. split; [done|]. simpl.
    by exists rs, ss, rules, results.
  - apply Forall2_cons_inv_l in Hxs as (v & vs' & Hx & Hxs & ->).
    destruct (loop_body_simulates _ _ _ _ _ _ _ Hpre Hstate Hx) as [[Hpre' Hturn] Hsub].
    cbn [Heap.for_each]. rewrite for_each_vuln_cons, run_bind.
    destruct (Heap.loop_body (HRef (base + 6)) x h) as [[[]| |] h'],
      (sarif1 ← append_at _ _ _; append_at sarif1 _ _) as [doc|err];
      simpl in Hpre', Hturn, Hsub; try done.
    destruct Hturn as (rs' & ss' & rules' & results' & -> & Hstate').
    cbn [mbind result_bind].
    eapply IH; [done|exact Hstate'|]. by eapply Forall2_repr_mono.
Qed.

(** A loop over a list, read again at every turn. *)
Lemma for_list_simulates (l : loc) items vs (bound i : nat)
    rs ss rules results (h : heap) :
  h0 `prefix_of` h →
  loop_state base rs ss rules results h →
  visible (arrays base) h l = Some (CList items) →
  Forall2 (repr (visible (arrays base) h)) items vs →
  length items - i < bound →
  loop_simulates h0 base
    (Heap.for_list bound l i (Heap.loop_body (HRef (base + 6))) h)
    (for_each_vuln (drop i vs) (sarif_document rules results)).
Proof.
  revert i rs ss rules results h.
  induction bound as [|bound IH];
    intros i rs ss rules results h Hpre Hstate Hl Hitems Hbound; [lia|].
  cbn [Heap.for_list].
  rewrite (run_bind_done _ _ h h _ (run_read _ _ _ (visible_lookup _ _ _ _ Hl))).
  destruct (items !! i) as [x|] eqn:Hi.
  - destruct (Forall2_lookup_l _ _ _ _ _ Hitems Hi) as (v & Hv & Hx).
    rewrite (drop_S _ _ _ Hv).
    destruct (loop_body_simulates _ _ _ _ _ _ _ Hpre Hstate Hx) as [[Hpre' Hturn] Hsub].
    rewrite for_each_vuln_cons, run_bind.
    destruct (Heap.loop_body (HRef (base + 6)) x h) as [[[]| |] h'],
      (sarif1 ← append_at _ _ _; append_at sarif1 _ _) as [doc|err];
      simpl in Hpre', Hturn, Hsub; try done.
    destruct Hturn as (rs' & ss' & rules' & results' & -> & Hstate').
    cbn [mbind result_bind].
    eapply IH; [done|exact Hstate'|by apply Hsub|by eapply Forall2_repr_mono|].
    apply lookup_lt_Some in Hi. lia.
  - apply lookup_ge_None in Hi.
    rewrite drop_ge by (rewrite <- (Forall2_length _ _ _ Hitems); lia).
    split; [done|]. simpl. by exists rs, ss, rules, results.
Qed.

(** [for vuln in vulnerabilities]. *)
Lemma for_in_simulates (xl : hval) (vl : value) (h : heap) rs ss rules results :
  h0 `prefix_of` h →
  loop_state base rs ss rules results h →
  repr (visible (arrays base) h) xl vl →
  loop_simulates h0 base
    (Heap.for_in xl (Heap.loop_body (HRef (base + 6))) h)
    (vulns ← py_iter vl; for_each_vuln vulns (sarif_document rules results)).
Proof.
  intros Hpre Hstate Hxl.
  inversion Hxl as [| | | |s|l items xs Hl Hitems|l entries kvs Hl Hentries];
    subst; try by split.
  - cbn [Heap.for_in py_iter mbind result_bind].
    eapply for_each_simulates; [done|exact Hstate|apply repr_chars].
  - cbn [Heap.for_in py_iter mbind result_bind].
    rewrite (run_bind_done _ _ h h _ (run_read _ _ _ (visible_lookup _ _ _ _ Hl))).
    rewrite <- (drop_0 xs).
    eapply for_list_simulates with (items := items); [done|exact Hstate|done| |].
    + by apply repr_items_Forall2.
    + lia.
  - cbn [Heap.for_in py_iter mbind result_bind].
    rewrite (run_bind_done _ _ h h _ (run_read _ _ _ (visible_lookup _ _ _ _ Hl))).
    eapply for_each_simulates; [done|exact Hstate|by apply repr_entries_keys].
Qed.

End Loop.

(** *** The conversion *)

Lemma run_bind_ret {A} (m : M A) (h : heap) : (m ≫= mret) h = m h.
Proof. rewrite run_bind. by destruct (m h) as [[a| |] h']. Qed.

Lemma result_bind_ret {A} (r : result A) : (r ≫= Ok) = r.
Proof. by destruct r. Qed.

Lemma convert_audit_to_sarif_input `{PyStr} (audit_data : value) :
  convert_audit_to_sarif audit_data
  = vulnerabilities ←
      (section ← dict_get audit_data "vulnerabilities" (VDict []);
       dict_get section "list" (VList []));
    vulns ← py_iter vulnerabilities;
    for_each_vuln vulns (sarif_document [] []).
Proof.
  unfold convert_audit_to_sarif.
  by destruct (dict_get audit_data "vulnerabilities" (VDict [])).
Qed.

Lemma simulates_input_list (h : heap) (audit_data : hval) (v : value) :
  represents h audit_data v →
  simulates [] h (input_list audit_data h)
    (section ← dict_get v "vulnerabilities" (VDict []);
     dict_get section "list" (VList [])).
Proof.
  unfold represents. intros Haudit.
  assert (h `prefix_of` h) as Hpre by done.
  pose proof (below_nil h) as Hbelow.
  unfold input_list. sim_step.
  match goal with
  | |- simulates _ _ (?m _) ?r =>
      rewrite <- (run_bind_ret m), <- (result_bind_ret r)
  end.
  sim_step. by split.
Qed.

(** The document in the store stands for the document on trees. *)
Lemma loop_state_represents base rs ss rules results (h : heap) :
  loop_state base rs ss rules results h →
  represents h (HRef (base + 6)) (sarif_document rules results).
Proof.
  intros ((H0 & H1 & H2 & H3 & H4 & H5 & H6) & Hrs & Hss).
  assert (repr_items (visible [] h) rs rules) as Hrules.
  { apply repr_items_Forall2. eapply Forall2_impl; [exact Hrs|].
    intros x v. apply repr_mono, visible_all. }
  assert (repr_items (visible [] h) ss results) as Hresults.
  { apply repr_items_Forall2. eapply Forall2_impl; [exact Hss|].
    intros x v. apply repr_mono, visible_all. }
  rewrite <- visible_nil in H0, H1, H2, H3, H4, H5, H6.
  unfold represents, sarif_document.
  repeat first
    [ assumption
    | apply repr_str
    | apply repr_entries_nil
    | apply repr_items_nil
    | apply repr_entries_cons
    | apply repr_items_cons
    | eapply repr_dict; [eassumption|]
    | eapply repr_list; [eassumption|] ].
Qed.

(** The conversion on the store ends as the conversion on the tree its
    input stands for: with the same exception, or with an object that
    stands for the same document. *)
Lemma convert_audit_to_sarif_simulates `{PyStr} `{HeapStr} `{!StrAgree}
    (h : heap) (audit_data : hval) (v : value) :
  represents h audit_data v →
  simulates [] h
    (Heap.convert_audit_to_sarif audit_data h) (convert_audit_to_sarif v).
Proof.
  intros Haudit.
  rewrite run_convert_audit_to_sarif, convert_audit_to_sarif_input.
  destruct (simulates_input_list _ _ _ Haudit) as [Hpre1 Hsim1].
  destruct (input_list audit_data h) as [[xl| |] h1],
    (section ← dict_get v "vulnerabilities" (VDict []);
     dict_get section "list" (VList [])) as [vl|err];
    simpl in Hpre1, Hsim1; try done.
  cbn [mbind result_bind].
  set (base := length h1).
  assert (h1 `prefix_of` h1 ++ skeleton_cells base) as Hext
    by by apply prefix_app_r.
  assert (loop_state base [] [] [] [] (h1 ++ skeleton_cells base)) as Hstate.
  { split; [apply skeleton_initial|]. by split; constructor. }
  assert (repr (visible (arrays base) (h1 ++ skeleton_cells base)) xl vl) as Hxl.
  { eapply repr_mono; [|exact Hsim1]. apply visible_hide; [done|].
    unfold arrays, base. repeat constructor; lia. }
  destruct (for_in_simulates h1 base (Nat.le_refl _) xl vl _ _ _ _ _ Hext Hstate Hxl)
    as [Hpre2 Hloop].
  destruct (Heap.for_in xl _ _) as [[[]| |] h2],
    (vulns ← py_iter vl; for_each_vuln vulns (sarif_document [] [])) as [doc|err];
    simpl in Hpre2, Hloop; try done.
  - destruct Hloop as (rs & ss & rules & results & -> & Hstate2).
    split; simpl; [by etrans|].
    by eapply loop_state_represents.
  - subst. split; simpl; [by etrans|done].
Qed.

(** ** The claims about runs *)

Lemma str_of_constant_agree : @StrAgree str_of_constant heap_str_of_constant.
Proof.
  intros h x v Hrepr. inversion Hrepr; subst; reflexivity.
Qed.

Lemma scenario_heap_represents :
  represents scenario_heap (HRef 6) scenario_report.
Proof. by apply (reify_represents 10). Qed.

(** C8: the conversion is deterministic.  Two runs on inputs that stand for
    the same report, wherever they are stored and whatever else the store
    holds, end the same way: both raise the same exception, or both return
    an object that stands for one and the same document, the one the
    conversion on trees gives for that report. *)
Theorem conversion_deterministic `{PyStr} `{HeapStr} `{!StrAgree}
    (h1 h2 : heap) (input1 input2 : hval) (report : value) :
  represents h1 input1 report →
  represents h2 input2 report →
  match (Heap.convert_audit_to_sarif input1 h1).1,
        (Heap.convert_audit_to_sarif input2 h2).1 with
  | Done doc1, Done doc2 =>
      ∃ doc,
        convert_audit_to_sarif report = Ok doc
        ∧ represents (Heap.convert_audit_to_sarif input1 h1).2 doc1 doc
        ∧ represents (Heap.convert_audit_to_sarif input2 h2).2 doc2 doc
  | Raised e1, Raised e2 =>
      e1 = e2 ∧ convert_audit_to_sarif report = Raise e1
  | _, _ => False
  end.
Proof.
  intros [_ Hrun1]%convert_audit_to_sarif_simulates
         [_ Hrun2]%convert_audit_to_sarif_simulates.
  destruct (Heap.convert_audit_to_sarif input1 h1) as [[doc1|e1|] h1'],
    (Heap.convert_audit_to_sarif input2 h2) as [[doc2|e2|] h2'],
    (convert_audit_to_sarif report) as [doc|e];
    simpl in *; try done.
  - by exists doc.
  - by subst.
Qed.

(** The conversion run twice in a row on the report of the scenario, the
    second time in the store the first run left. *)
Lemma conversion_deterministic_witness :
  ∃ doc,
    @convert_audit_to_sarif str_of_constant scenario_report = Ok doc
    ∧ represents
        (@Heap.convert_audit_to_sarif heap_str_of_constant (HRef 6) scenario_heap).2
        (HRef 15) doc
    ∧ represents
        (@Heap.convert_audit_to_sarif heap_str_of_constant (HRef 6)
           (@Heap.convert_audit_to_sarif heap_str_of_constant (HRef 6)
              scenario_heap).2).2
        (HRef 47) doc.
Proof.
  exact (@conversion_deterministic
           str_of_constant heap_str_of_constant str_of_constant_agree
           scenario_heap
           (@Heap.convert_audit_to_sarif heap_str_of_constant (HRef 6)
              scenario_heap).2
           (HRef 6) (HRef 6) scenario_report
           scenario_heap_represents
           (reify_represents 10
              (@Heap.convert_audit_to_sarif heap_str_of_constant (HRef 6)
                 scenario_heap).2
              (HRef 6) scenario_report eq_refl)).
Defined.

(** The records the builders return are new objects; the values they put in
    them are the input's own, not copies: a field value that is a list or a
    mapping is shared between the input and the output. *)
Lemma create_sarif_rule_shares_field_values :
  ∃ (l : loc) (h' : heap) (entries : list (string * hval)),
    @Heap.create_sarif_rule heap_str_of_constant (HRef 2) shared_heap
    = (Done (HRef l), h')
    ∧ length shared_heap ≤ l
    ∧ h' !! l = Some (CDict entries)
    ∧ assoc "id" entries = Some (HRef 0).
Proof.
  eexists _, _, _. split; [reflexivity|].
  split; [simpl; lia|]. by split.
Qed.

(** * Further properties *)

(** ** The builders: when they raise, and what they read *)

Lemma create_sarif_rule_untyped `{PyStr} (kvs : list (string * value)) :
  rule_typed kvs = false → create_sarif_rule (VDict kvs) = Raise AttributeError.
Proof.
  unfold rule_typed. intros Ht.
  destruct (absent_or_dict kvs "advisory") eqn:Ha; simpl in Ht.
  2: { unfold create_sarif_rule. step_builder.
       by rewrite !(dict_get_sub_untyped kvs "advisory") by assumption. }
  destruct (absent_or_dict kvs "package") eqn:Hp; simpl in Ht.
  2: { unfold create_sarif_rule. step_builder.
       by rewrite !(dict_get_sub_untyped kvs "package") by assumption. }
  unfold create_sarif_rule. step_builder.
  by rewrite !(dict_get_sub_untyped kvs "cvss") by assumption.
Qed.

Lemma create_sarif_result_untyped (kvs : list (string * value)) :
  result_typed kvs = false → create_sarif_result (VDict kvs) = Raise AttributeError.
Proof.
  unfold result_typed, rule_typed. intros Ht.
  destruct (absent_or_dict kvs "advisory") eqn:Ha; simpl in Ht.
  2: { unfold create_sarif_result. step_builder.
       by rewrite !(dict_get_sub_untyped kvs "advisory") by assumption. }
  destruct (absent_or_str kvs "severity") eqn:Hs.
  2: { unfold create_sarif_result. step_builder.
       by rewrite convert_severity_untyped by assumption. }
  destruct (convert_severity_typed kvs Hs) as [level Hlevel].
  destruct (absent_or_dict kvs "package") eqn:Hp; simpl in Ht.
  2: { unfold create_sarif_result. step_builder.
       rewrite Hlevel. step_builder.
       by rewrite !(dict_get_sub_untyped kvs "package") by assumption. }
  rewrite andb_true_r in Ht.
  unfold create_sarif_result. step_builder.
  rewrite Hlevel. step_builder.
  by rewrite !(dict_get_sub_untyped kvs "cvss") by assumption.
Qed.

(** X1: the result builder returns a record exactly on a mapping in which
    [advisory], [package] and [cvss] are each absent or a mapping and
    [severity] is absent or a string; on anything else, a vulnerability that
    is not a mapping included, it raises AttributeError and no other
    exception. *)
Theorem create_sarif_result_outcome (vuln : value) :
  (vuln_typed vuln = true ∧ ∃ res, create_sarif_result vuln = Ok res)
  ∨ (vuln_typed vuln = false ∧ create_sarif_result vuln = Raise AttributeError).
Proof.
  destruct (vuln_typed vuln) eqn:Ht.
  - left. split; [done|].
    destruct vuln as [| | | | | |kvs]; try done.
    destruct (create_sarif_result_typed kvs Ht) as (level & _ & ->). by eexists.
  - right. split; [done|].
    destruct vuln as [| | | | | |kvs]; try done.
    by apply create_sarif_result_untyped.
Qed.

(** X2: the rule builder returns a record exactly on a mapping in which
    [advisory], [package] and [cvss] are each absent or a mapping, whatever
    [severity] is; on anything else it raises AttributeError and no other
    exception. *)
Theorem create_sarif_rule_outcome `{PyStr} (vuln : value) :
  (rule_input_typed vuln = true ∧ ∃ rule, create_sarif_rule vuln = Ok rule)
  ∨ (rule_input_typed vuln = false ∧ create_sarif_rule vuln = Raise AttributeError).
Proof.
  destruct (rule_input_typed vuln) eqn:Ht.
  - left. split; [done|].
    destruct vuln as [| | | | | |kvs]; try done.
    rewrite (create_sarif_rule_typed kvs Ht). by eexists.
  - right. split; [done|].
    destruct vuln as [| | | | | |kvs]; try done.
    by apply create_sarif_rule_untyped.
Qed.

Lemma convert_severity_range (severity level : value) :
  convert_severity severity = Ok level → level ∈ sarif_levels.
Proof.
  destruct severity as [| | | |s| |]; try done.
  unfold convert_severity, severity_map, sarif_levels; simpl.
  intros [= <-].
  repeat match goal with
  | |- context [String.eqb ?a ?b] => destruct (String.eqb a b)
  end; simpl; rewrite !elem_of_cons; tauto.
Qed.

Lemma create_sarif_result_level (vuln res : value) :
  create_sarif_result vuln = Ok res →
  ∃ level, subscript res (KStr "level") = Ok level ∧ level ∈ sarif_levels.
Proof.
  intros Hres.
  destruct (create_sarif_result_inv _ _ Hres) as (kvs & -> & Ht).
  destruct (create_sarif_result_typed kvs Ht) as (level & Hlevel & Heq).
  rewrite Heq in Hres. injection Hres as <-.
  exists (VStr level). split; [done|]. by eapply convert_severity_range.
Qed.

(** X3: the builders read four keys of a vulnerability and nothing else.
    Two mappings with the same [advisory], [package] and [cvss] get the same
    rule, whatever their [severity] and their other keys; if they also have
    the same [severity] they get the same result. *)
Theorem builders_read_four_keys `{PyStr} (kvs kvs' : list (string * value)) :
  assoc "advisory" kvs = assoc "advisory" kvs' →
  assoc "package" kvs = assoc "package" kvs' →
  assoc "cvss" kvs = assoc "cvss" kvs' →
  create_sarif_rule (VDict kvs) = create_sarif_rule (VDict kvs')
  ∧ (assoc "severity" kvs = assoc "severity" kvs' →
     create_sarif_result (VDict kvs) = create_sarif_result (VDict kvs')).
Proof.
  intros Ha Hp Hc. split.
  - unfold create_sarif_rule, dict_get. by rewrite Ha, Hp, Hc.
  - intros Hs. unfold create_sarif_result, dict_get. by rewrite Ha, Hp, Hc, Hs.
Qed.

Lemma builders_read_four_keys_witness :
  @create_sarif_rule str_of_constant (VDict scenario_vuln)
  = @create_sarif_rule str_of_constant
      (VDict (("versions", VDict [ ("patched", VList [ VStr ">=1.2.4" ]) ])
              :: ("severity", VStr "low") :: scenario_vuln)).
Proof.
  exact (proj1 (@builders_read_four_keys str_of_constant scenario_vuln
    (("versions", VDict [ ("patched", VList [ VStr ">=1.2.4" ]) ])
     :: ("severity", VStr "low") :: scenario_vuln)
    eq_refl eq_refl eq_refl)).
Defined.

(** X4: a rule and a result built from the same vulnerability carry the same
    security-severity: cvss.score, or 5.0 when the vulnerability has none. *)
Theorem rule_and_result_same_score `{PyStr} (vuln rule res : value) :
  create_sarif_rule vuln = Ok rule →
  create_sarif_result vuln = Ok res →
  ∃ kvs,
    vuln = VDict kvs
    ∧ get_path rule [ KStr "properties"; KStr "security-severity" ]
      = Ok (sub_field kvs "cvss" "score" (VFloat 5.0))
    ∧ get_path res [ KStr "properties"; KStr "security-severity" ]
      = Ok (sub_field kvs "cvss" "score" (VFloat 5.0)).
Proof.
  intros Hrule Hres.
  destruct (create_sarif_result_inv _ _ Hres) as (kvs & -> & Ht).
  exists kvs. split; [done|].
  destruct (create_sarif_result_typed kvs Ht) as (level & _ & Heq).
  rewrite Heq in Hres. injection Hres as <-.
  apply result_typed_inv in Ht as [Ht _].
  rewrite (create_sarif_rule_typed kvs Ht) in Hrule. injection Hrule as <-.
  by split.
Qed.

Lemma rule_and_result_same_score_witness :
  ∃ kvs,
    VDict scenario_vuln = VDict kvs
    ∧ get_path
        (VDict
          [ ("id", VStr "RUSTSEC-2023-0001");
            ("name", VStr "Bad crate");
            ("shortDescription", VDict [ ("text", VStr "Bad crate") ]);
            ("fullDescription", VDict [ ("text", VStr "desc") ]);
            ("help", VDict
              [ ("text", VStr "Update foo to a patched version");
                ("markdown", VStr
                  ("## Bad crate" +:+ nl +:+ nl +:+ "desc" +:+ nl +:+ nl
                   +:+ "### References" +:+ nl +:+ "- http://x")) ]);
            ("properties", VDict
              [ ("security-severity", VFloat 8.1);
                ("tags", VList [ VStr "security"; VStr "vulnerability" ]) ]) ])
        [ KStr "properties"; KStr "security-severity" ]
      = Ok (sub_field kvs "cvss" "score" (VFloat 5.0))
    ∧ get_path
        (VDict
          [ ("ruleId", VStr "RUSTSEC-2023-0001");
            ("level", VStr "error");
            ("message", VDict [ ("text", VStr "desc") ]);
            ("locations", VList
              [ VDict
                  [ ("physicalLocation", VDict
                      [ ("artifactLocation", VDict [ ("uri", VStr "Cargo.toml") ]);
                        ("region", VDict
                          [ ("startLine", VInt 1); ("startColumn", VInt 1) ]) ]) ] ]);
            ("partialFingerprints", VDict
              [ ("packageName", VStr "foo"); ("packageVersion", VStr "1.2.3") ]);
            ("properties", VDict
              [ ("security-severity", VFloat 8.1);
                ("tags", VList
                  [ VStr "security"; VStr "dependency"; VStr "vulnerability" ]);
                ("precision", VStr "very-high") ]) ])
        [ KStr "properties"; KStr "security-severity" ]
      = Ok (sub_field kvs "cvss" "score" (VFloat 5.0)).
Proof.
  exact (@rule_and_result_same_score str_of_constant (VDict scenario_vuln)
           _ _ eq_refl eq_refl).
Defined.

(** ** The assembled document: when the conversion raises, and how it composes *)

Lemma create_sarif_result_raises (vuln : value) (e : exn) :
  create_sarif_result vuln = Raise e → e = AttributeError.
Proof.
  destruct vuln as [| | | | | |kvs]; try by intros [= <-].
  destruct (result_typed kvs) eqn:Ht.
  - destruct (create_sarif_result_typed kvs Ht) as (level & _ & ->). done.
  - rewrite (create_sarif_result_untyped kvs Ht). by intros [= <-].
Qed.

Lemma create_sarif_rule_raises `{PyStr} (vuln : value) (e : exn) :
  create_sarif_rule vuln = Raise e → e = AttributeError.
Proof.
  destruct vuln as [| | | | | |kvs]; try by intros [= <-].
  destruct (rule_typed kvs) eqn:Ht.
  - by rewrite (create_sarif_rule_typed kvs Ht).
  - rewrite (create_sarif_rule_untyped kvs Ht). by intros [= <-].
Qed.

Lemma for_each_vuln_raises `{PyStr} vulns rules results (e : exn) :
  for_each_vuln vulns (sarif_document rules results) = Raise e →
  e = AttributeError.
Proof.
  revert rules results.
  induction vulns as [|vuln vulns IH]; intros rules results; simpl; [done|].
  rewrite append_at_rules.
  destruct (create_sarif_rule vuln) as [rule|e1] eqn:Hrule; simpl.
  2: { intros [= <-]. by eapply create_sarif_rule_raises. }
  rewrite append_at_results.
  destruct (create_sarif_result vuln) as [res|e2] eqn:Hres; simpl.
  2: { intros [= <-]. by eapply create_sarif_result_raises. }
  apply IH.
Qed.

Lemma sarif_document_inj rules results rules' results' :
  sarif_document rules results = sarif_document rules' results' →
  rules = rules' ∧ results = results'.
Proof. unfold sarif_document. by intros [= -> ->]. Qed.

(** X5: the conversion returns a document exactly when every entry of the
    vulnerability list is a mapping of the documented shape ([advisory],
    [package], [cvss] absent or mappings, [severity] absent or a string);
    one entry of another shape and no document is returned at all. *)
Theorem convert_audit_to_sarif_ok_iff `{PyStr} (audit_data : value)
    (vulns : list value) :
  input_vulnerabilities audit_data = Ok vulns →
  (∃ doc, convert_audit_to_sarif audit_data = Ok doc)
  ↔ Forall (λ vuln, vuln_typed vuln = true) vulns.
Proof.
  intros Hin. split.
  - intros [doc (vulns' & rules & results & Hin' & _ & _ & Hs)%convert_audit_to_sarif_inv].
    rewrite Hin in Hin'. injection Hin' as <-.
    clear Hin. induction Hs as [|vuln res vulns results Hres _ IH]; constructor; [|done].
    by destruct (create_sarif_result_inv _ _ Hres) as (kvs & -> & Ht).
  - intros Hall.
    destruct (convert_audit_to_sarif_succeeds _ _ Hin Hall) as (rules & results & -> & _).
    by eexists.
Qed.

Lemma convert_audit_to_sarif_ok_iff_witness :
  (∃ doc, @convert_audit_to_sarif str_of_constant scenario_report = Ok doc)
  ↔ Forall (λ vuln, vuln_typed vuln = true) [ VDict scenario_vuln ].
Proof.
  exact (@convert_audit_to_sarif_ok_iff str_of_constant scenario_report
           [ VDict scenario_vuln ] eq_refl).
Defined.

(** X6: when the conversion raises, it raises AttributeError, except when
    the value found for the vulnerability list is [None], a boolean or a
    number: the [for] statement then raises TypeError, before any
    vulnerability is looked at. *)
Theorem convert_audit_to_sarif_raises `{PyStr} (audit_data : value) (e : exn) :
  convert_audit_to_sarif audit_data = Raise e →
  e = AttributeError
  ∨ (e = TypeError
     ∧ ∃ section vulnerabilities,
         dict_get audit_data "vulnerabilities" (VDict []) = Ok section
         ∧ dict_get section "list" (VList []) = Ok vulnerabilities
         ∧ py_iter vulnerabilities = Raise TypeError).
Proof.
  unfold convert_audit_to_sarif.
  destruct (dict_get audit_data "vulnerabilities" (VDict [])) as [section|e1] eqn:H1;
    simpl.
  2: { destruct audit_data; simpl in H1; try discriminate;
       injection H1 as <-; intros [= <-]; by left. }
  destruct (dict_get section "list" (VList [])) as [vulnerabilities|e2] eqn:H2;
    simpl.
  2: { destruct section; simpl in H2; try discriminate;
       injection H2 as <-; intros [= <-]; by left. }
  destruct (py_iter vulnerabilities) as [vulns|e3] eqn:H3; simpl.
  - intros ?%for_each_vuln_raises. by left.
  - intros [= <-]. right.
    assert (e3 = TypeError) as ->.
    { destruct vulnerabilities; simpl in H3; try discriminate;
        by injection H3 as <-. }
    split; [done|]. by exists section, vulnerabilities.
Qed.

Lemma convert_audit_to_sarif_raises_witness :
  TypeError = AttributeError
  ∨ (TypeError = TypeError
     ∧ ∃ section vulnerabilities,
         dict_get (VDict [ ("vulnerabilities", VDict [ ("list", VInt 3) ]) ])
           "vulnerabilities" (VDict []) = Ok section
         ∧ dict_get section "list" (VList []) = Ok vulnerabilities
         ∧ py_iter vulnerabilities = Raise TypeError).
Proof.
  exact (@convert_audit_to_sarif_raises str_of_constant
           (VDict [ ("vulnerabilities", VDict [ ("list", VInt 3) ]) ])
           TypeError eq_refl).
Defined.

(** X7: converting a list that is two lists put end to end gives the rules
    and the results of the first followed by those of the second: nothing
    is merged, reordered or dropped, and an entry that occurs twice is
    reported twice. *)
Theorem convert_audit_to_sarif_app `{PyStr} (first second both : value)
    (vulns1 vulns2 : list value) (doc1 doc2 : value) :
  input_vulnerabilities first = Ok vulns1 →
  input_vulnerabilities second = Ok vulns2 →
  input_vulnerabilities both = Ok (vulns1 ++ vulns2) →
  convert_audit_to_sarif first = Ok doc1 →
  convert_audit_to_sarif second = Ok doc2 →
  ∃ rules1 results1 rules2 results2,
    doc1 = sarif_document rules1 results1
    ∧ doc2 = sarif_document rules2 results2
    ∧ convert_audit_to_sarif both
      = Ok (sarif_document (rules1 ++ rules2) (results1 ++ results2)).
Proof.
  intros Hin1 Hin2 Hin
    (? & rules1 & results1 & Hin1' & -> & Hr1 & Hs1)%convert_audit_to_sarif_inv
    (? & rules2 & results2 & Hin2' & -> & Hr2 & Hs2)%convert_audit_to_sarif_inv.
  rewrite Hin1 in Hin1'. injection Hin1' as <-.
  rewrite Hin2 in Hin2'. injection Hin2' as <-.
  exists rules1, results1, rules2, results2. split; [done|]. split; [done|].
  rewrite convert_audit_to_sarif_unfold, Hin. simpl.
  apply (for_each_vuln_ok _ [] []); by apply Forall2_app.
Qed.

Lemma convert_audit_to_sarif_app_witness :
  ∃ rules1 results1 rules2 results2,
    scenario_sarif = sarif_document rules1 results1
    ∧ scenario_sarif = sarif_document rules2 results2
    ∧ @convert_audit_to_sarif str_of_constant
        (VDict [ ("vulnerabilities", VDict
                   [ ("list", VList [ VDict scenario_vuln; VDict scenario_vuln ]) ]) ])
      = Ok (sarif_document (rules1 ++ rules2) (results1 ++ results2)).
Proof.
  exact (@convert_audit_to_sarif_app str_of_constant
           scenario_report scenario_report
           (VDict [ ("vulnerabilities", VDict
                      [ ("list", VList [ VDict scenario_vuln; VDict scenario_vuln ]) ]) ])
           [ VDict scenario_vuln ] [ VDict scenario_vuln ]
           scenario_sarif scenario_sarif
           eq_refl eq_refl eq_refl eq_refl eq_refl).
Defined.

(** X8: of a report the conversion reads the entry [list] of the entry
    [vulnerabilities] and nothing else: two reports that agree there are
    converted alike, whatever their other keys hold. *)
Theorem convert_audit_to_sarif_reads_list `{PyStr}
    (kvs kvs' section section' : list (string * value)) :
  assoc "vulnerabilities" kvs = Some (VDict section) →
  assoc "vulnerabilities" kvs' = Some (VDict section') →
  assoc "list" section = assoc "list" section' →
  convert_audit_to_sarif (VDict kvs) = convert_audit_to_sarif (VDict kvs').
Proof.
  intros Hv Hv' Hl. unfold convert_audit_to_sarif, dict_get.
  rewrite Hv, Hv'. simpl. by rewrite Hl.
Qed.

Lemma convert_audit_to_sarif_reads_list_witness :
  @convert_audit_to_sarif str_of_constant scenario_report
  = @convert_audit_to_sarif str_of_constant
      (VDict
        [ ("database", VDict [ ("advisory-count", VInt 600) ]);
          ("vulnerabilities", VDict
            [ ("found", VBool true);
              ("count", VInt 1);
              ("list", VList [ VDict scenario_vuln ]) ]);
          ("warnings", VDict []) ]).
Proof.
  exact (@convert_audit_to_sarif_reads_list str_of_constant
           [ ("vulnerabilities", VDict [ ("list", VList [ VDict scenario_vuln ]) ]) ]
           [ ("database", VDict [ ("advisory-count", VInt 600) ]);
             ("vulnerabilities", VDict
               [ ("found", VBool true);
                 ("count", VInt 1);
                 ("list", VList [ VDict scenario_vuln ]) ]);
             ("warnings", VDict []) ]
           [ ("list", VList [ VDict scenario_vuln ]) ]
           [ ("found", VBool true);
             ("count", VInt 1);
             ("list", VList [ VDict scenario_vuln ]) ]
           eq_refl eq_refl eq_refl).
Defined.

(** X9: every document the conversion returns has the same frame, whatever
    the report: the schema URI, version "2.1.0", exactly one run, the tool
    driver cargo-audit 0.18.0 with its information URI, and columnKind
    utf16CodeUnits. *)
Theorem convert_audit_to_sarif_frame `{PyStr} (audit_data doc : value) :
  convert_audit_to_sarif audit_data = Ok doc →
  get_path doc [ KStr "$schema" ]
  = Ok (VStr "https://json.schemastore.org/sarif-2.1.0.json")
  ∧ get_path doc [ KStr "version" ] = Ok (VStr "2.1.0")
  ∧ (∃ run, get_path doc [ KStr "runs" ] = Ok (VList [ run ]))
  ∧ get_path doc [ KStr "runs"; KIdx 0; KStr "tool"; KStr "driver"; KStr "name" ]
    = Ok (VStr "cargo-audit")
  ∧ get_path doc [ KStr "runs"; KIdx 0; KStr "tool"; KStr "driver"; KStr "version" ]
    = Ok (VStr "0.18.0")
  ∧ get_path doc
      [ KStr "runs"; KIdx 0; KStr "tool"; KStr "driver"; KStr "informationUri" ]
    = Ok (VStr "https://github.com/RustSec/rustsec")
  ∧ get_path doc [ KStr "runs"; KIdx 0; KStr "columnKind" ]
    = Ok (VStr "utf16CodeUnits").
Proof.
  intros (vulns & rules & results & _ & -> & _)%convert_audit_to_sarif_inv.
  repeat split; try done. by eexists.
Qed.

Lemma convert_audit_to_sarif_frame_witness :
  get_path scenario_sarif [ KStr "$schema" ]
  = Ok (VStr "https://json.schemastore.org/sarif-2.1.0.json")
  ∧ get_path scenario_sarif [ KStr "version" ] = Ok (VStr "2.1.0")
  ∧ (∃ run, get_path scenario_sarif [ KStr "runs" ] = Ok (VList [ run ]))
  ∧ get_path scenario_sarif
      [ KStr "runs"; KIdx 0; KStr "tool"; KStr "driver"; KStr "name" ]
    = Ok (VStr "cargo-audit")
  ∧ get_path scenario_sarif
      [ KStr "runs"; KIdx 0; KStr "tool"; KStr "driver"; KStr "version" ]
    = Ok (VStr "0.18.0")
  ∧ get_path scenario_sarif
      [ KStr "runs"; KIdx 0; KStr "tool"; KStr "driver"; KStr "informationUri" ]
    = Ok (VStr "https://github.com/RustSec/rustsec")
  ∧ get_path scenario_sarif [ KStr "runs"; KIdx 0; KStr "columnKind" ]
    = Ok (VStr "utf16CodeUnits").
Proof.
  exact (@convert_audit_to_sarif_frame str_of_constant scenario_report
           scenario_sarif eq_refl).
Defined.

(** X10: every result of a document the conversion returns has a level, and
    the level is "error", "warning" or "note". *)
Theorem convert_audit_to_sarif_levels `{PyStr} (audit_data doc : value) :
  convert_audit_to_sarif audit_data = Ok doc →
  ∃ results,
    get_path doc results_path = Ok (VList results)
    ∧ Forall (λ res,
        ∃ level, subscript res (KStr "level") = Ok level ∧ level ∈ sarif_levels)
        results.
Proof.
  intros (vulns & rules & results & _ & -> & _ & Hs)%convert_audit_to_sarif_inv.
  exists results. split; [done|].
  induction Hs as [|vuln res vulns results Hres _ IH]; constructor; [|done].
  by eapply create_sarif_result_level.
Qed.

Lemma convert_audit_to_sarif_levels_witness :
  ∃ results,
    get_path scenario_sarif results_path = Ok (VList results)
    ∧ Forall (λ res,
        ∃ level, subscript res (KStr "level") = Ok level ∧ level ∈ sarif_levels)
        results.
Proof.
  exact (@convert_audit_to_sarif_levels str_of_constant scenario_report
           scenario_sarif eq_refl).
Defined.

(** ** The command line: every way a run can end *)

Lemma assoc_put_file_same (path text : string) (f : filesystem) :
  assoc path (files (put_file path text f)) = Some text.
Proof. simpl. by rewrite String.eqb_refl. Qed.

Lemma assoc_put_file_other (path other text : string) (f : filesystem) :
  other ≠ path →
  assoc other (files (put_file path text f)) = assoc other (files f).
Proof.
  intros Hne. simpl.
  destruct (String.eqb_spec other path) as [?|_]; [done|].
  induction (files f) as [|[k v] l IH]; [done|].
  destruct (String.eqb_spec k path) as [->|Hk].
  - rewrite filter_cons_False by (simpl; rewrite String.eqb_refl; auto).
    simpl. by destruct (String.eqb_spec other path).
  - rewrite filter_cons_True.
    + simpl. by rewrite IH.
    + simpl. by destruct (String.eqb_spec k path).
Qed.

(** A run with two arguments, case by case. *)
Lemma main_run `{PyStr} `{JsonLib} `{Stdout}
    (prog input_file output_file : string) (w : world) :
  main [ prog; input_file; output_file ] w
  = match converted_input (fs w) input_file with
    | Raise e =>
        (1%Z,
         {| fs := fs w;
            opened := opened w ++ [ OpenRead input_file ];
            printed := printed w ++ [ "Error: " +:+ exn_text e ] |})
    | Ok sarif_data =>
        if decide (output_file ∈ unwritable (fs w)) then
          (1%Z,
           {| fs := fs w;
              opened := opened w ++ [ OpenRead input_file; OpenWrite output_file ];
              printed := printed w ++ [ "Error: " +:+ exn_text OSError ] |})
        else
          match json_dump sarif_data with
          | Raise e =>
              (1%Z,
               {| fs := put_file output_file "" (fs w);
                  opened := opened w ++ [ OpenRead input_file; OpenWrite output_file ];
                  printed := printed w ++ [ "Error: " +:+ exn_text e ] |})
          | Ok out =>
              if stdout_encodes
                   ("Successfully converted " +:+ input_file +:+ " to "
                    +:+ output_file)
              then
                (0%Z,
                 {| fs := put_file output_file out (put_file output_file "" (fs w));
                    opened :=
                      opened w ++ [ OpenRead input_file; OpenWrite output_file ];
                    printed :=
                      printed w
                      ++ [ "Successfully converted " +:+ input_file +:+ " to "
                           +:+ output_file ] |})
              else
                (1%Z,
                 {| fs := put_file output_file out (put_file output_file "" (fs w));
                    opened :=
                      opened w ++ [ OpenRead input_file; OpenWrite output_file ];
                    printed := printed w ++ [ "Error: " +:+ exn_text ValueError ] |})
          end
    end.
Proof.
  unfold main, converted_input, mbind, IO_bind, result_bind,
    read_file, lift, open_write, write_text, print_in_try, print.
  simpl.
  destruct (assoc input_file (files (fs w))) as [text|]; [|done].
  destruct (json_load text) as [audit_data|]; [|done].
  destruct (convert_audit_to_sarif audit_data) as [sarif_data|]; [|done].
  simpl.
  destruct (decide (output_file ∈ unwritable (fs w))); simpl.
  - by rewrite <- app_assoc.
  - destruct (json_dump sarif_data) as [out|]; simpl;
      [|by rewrite <- app_assoc].
    destruct (stdout_encodes _); simpl; by rewrite <- app_assoc.
Qed.



(** X19: the same run when standard output cannot encode the line
    "Successfully converted IN to OUT" (a path with a character the
    encoding of standard output does not have): the [print] of line 121
    raises inside the [try], after the output file was written.  [main] then
    exits with status 1 and prints the one line "Error: " followed by the
    text of that exception, and the output file holds the serialised
    document all the same. *)
Theorem main_print_failure `{PyStr} `{JsonLib} `{Stdout}
    (prog input_file output_file text out : string)
    (audit_data sarif_data : value) (w : world) :
  assoc input_file (files (fs w)) = Some text →
  json_load text = Ok audit_data →
  convert_audit_to_sarif audit_data = Ok sarif_data →
  output_file ∉ unwritable (fs w) →
  json_dump sarif_data = Ok out →
  stdout_encodes
    ("Successfully converted " +:+ input_file +:+ " to " +:+ output_file) = false →
  (main [ prog; input_file; output_file ] w).1 = 1%Z
  ∧ assoc output_file (files (fs (main [ prog; input_file; output_file ] w).2))
    = Some out
  ∧ opened (main [ prog; input_file; output_file ] w).2
    = opened w ++ [ OpenRead input_file; OpenWrite output_file ]
  ∧ printed (main [ prog; input_file; output_file ] w).2
    = printed w ++ [ "Error: " +:+ exn_text ValueError ].
Proof.
  intros Hfile Hload Hconv Hwritable Hdump Hprint.
  rewrite main_run. unfold converted_input.
  rewrite Hfile. cbn [mbind result_bind]. rewrite Hload. cbn [mbind result_bind].
  rewrite Hconv, decide_False, Hdump, Hprint by done.
  cbn [fst snd fs opened printed].
  repeat split. apply assoc_put_file_same.
Qed.

Lemma main_print_failure_witness :
  (@main str_of_constant scenario_json ascii_stdout
     [ "audit-to-sarif.py"; "audit.json"; "résultats.sarif" ] scenario_world).1
  = 1%Z
  ∧ assoc "résultats.sarif"
      (files (fs (@main str_of_constant scenario_json ascii_stdout
                    [ "audit-to-sarif.py"; "audit.json"; "résultats.sarif" ]
                    scenario_world).2))
    = Some "{ }"
  ∧ opened (@main str_of_constant scenario_json ascii_stdout
              [ "audit-to-sarif.py"; "audit.json"; "résultats.sarif" ]
              scenario_world).2
    = [ OpenRead "audit.json"; OpenWrite "résultats.sarif" ]
  ∧ printed (@main str_of_constant scenario_json ascii_stdout
               [ "audit-to-sarif.py"; "audit.json"; "résultats.sarif" ]
               scenario_world).2
    = [ "Error: " ].
Proof.
  apply (@main_print_failure str_of_constant scenario_json ascii_stdout
           "audit-to-sarif.py" "audit.json" "résultats.sarif" "{ }" "{ }"
           scenario_report scenario_sarif scenario_world);
    try reflexivity.
  simpl. rewrite elem_of_cons, elem_of_nil. intros [?|[]]; discriminate.
Defined.



(** X13: whatever the arguments and however the run ends, [main] changes no
    file but the one named by its second argument. *)
Theorem main_changes_only_output `{PyStr} `{JsonLib} `{Stdout}
    (argv : list string) (w : world) (path : string) :
  path ≠ default "" (argv !! 2) →
  assoc path (files (fs (main argv w).2)) = assoc path (files (fs w)).
Proof.
  intros Hpath.
  destruct (decide (length argv = 3)) as [Hlen|Hlen].
  - destruct argv as [|prog [|input_file [|output_file [|]]]]; try done.
    change (default "" (_ !! 2)) with output_file in Hpath.
    rewrite main_run.
    destruct (converted_input _ _) as [sarif_data|]; [|done].
    destruct (decide (_ ∈ _)); [done|].
    destruct (json_dump sarif_data) as [out|];
      [destruct (stdout_encodes _)|]; cbn [snd fs];
      by rewrite !assoc_put_file_other by done.
  - unfold main. by destruct (Nat.eqb_spec (length argv) 3).
Qed.

Lemma main_changes_only_output_witness :
  assoc "notes.txt"
    (files (fs (@main str_of_constant scenario_json ascii_stdout
                  [ "audit-to-sarif.py"; "audit.json"; "results.sarif" ]
                  scenario_world).2))
  = Some "keep".
Proof.
  apply (@main_changes_only_output str_of_constant scenario_json ascii_stdout
           [ "audit-to-sarif.py"; "audit.json"; "results.sarif" ]
           scenario_world "notes.txt").
  discriminate.
Defined.


(** X15: [main] opens at most two files, in this order: the input for
    reading, then the output for writing; and it opens the output only when
    the input was read, parsed and converted. *)
Theorem main_opens_in_order `{PyStr} `{JsonLib} `{Stdout}
    (argv : list string) (w : world) :
  opened (main argv w).2 = opened w
  ∨ opened (main argv w).2 = opened w ++ [ OpenRead (default "" (argv !! 1)) ]
  ∨ (opened (main argv w).2
     = opened w ++ [ OpenRead (default "" (argv !! 1));
                     OpenWrite (default "" (argv !! 2)) ]
     ∧ ∃ sarif_data,
         converted_input (fs w) (default "" (argv !! 1)) = Ok sarif_data).
Proof.
  destruct (decide (length argv = 3)) as [Hlen|Hlen].
  - destruct argv as [|prog [|input_file [|output_file [|]]]]; try done.
    change (default "" (_ !! 1)) with input_file.
    change (default "" (_ !! 2)) with output_file.
    rewrite main_run.
    destruct (converted_input _ _) as [sarif_data|e]; [|by right; left].
    right; right.
    destruct (decide (_ ∈ _)); [by split; [|eexists]|].
    destruct (json_dump sarif_data) as [out|e];
      [destruct (stdout_encodes _)|]; by split; [|eexists].
  - left. unfold main. by destruct (Nat.eqb_spec (length argv) 3).
Qed.

(** ** The store: what the builders leave, and what a run returns *)

Lemma returns_new_alloc (c : cell) : returns_new (alloc c).
Proof. intros h x h' [= <- <-]. by eexists. Qed.

Lemma returns_new_bind {A} (m : M A) (f : A → M hval) :
  allocates m → (∀ a, returns_new (f a)) → returns_new (m ≫= f).
Proof.
  intros Hm Hf h x h'. rewrite run_bind.
  pose proof (Hm h) as Hpre%prefix_length.
  destruct (m h) as [[a| |] h1]; simpl in Hpre; try done.
  intros (l & -> & Hl)%Hf. exists l. split; [done|]. lia.
Qed.

Lemma returns_new_create_sarif_result (vuln : hval) :
  returns_new (Heap.create_sarif_result vuln).
Proof.
  unfold Heap.create_sarif_result.
  repeat (apply returns_new_bind; [solve [auto with allocates]|intros ?]).
  apply returns_new_alloc.
Qed.

Lemma returns_new_create_sarif_rule `{HeapStr} (vuln : hval) :
  returns_new (Heap.create_sarif_rule vuln).
Proof.
  unfold Heap.create_sarif_rule.
  repeat (apply returns_new_bind;
            [first [apply allocates_format_field|solve [auto with allocates]]
            |intros ?]).
  apply returns_new_alloc.
Qed.

(** X16: the builders do not write to any object that exists, their argument
    and everything reachable from it included: however they end, the store
    after is the store before with new objects at its end; and the record
    they return is one of the new objects. *)
Theorem builders_only_allocate `{HeapStr} (vuln : hval) (h : heap) :
  h `prefix_of` (Heap.create_sarif_rule vuln h).2
  ∧ h `prefix_of` (Heap.create_sarif_result vuln h).2
  ∧ (∀ rule,
       (Heap.create_sarif_rule vuln h).1 = Done rule →
       ∃ l, rule = HRef l ∧ length h ≤ l)
  ∧ (∀ res,
       (Heap.create_sarif_result vuln h).1 = Done res →
       ∃ l, res = HRef l ∧ length h ≤ l).
Proof.
  split; [apply allocates_create_sarif_rule|].
  split; [apply allocates_create_sarif_result|].
  split.
  - intros rule Hrule.
    apply (returns_new_create_sarif_rule vuln h rule (Heap.create_sarif_rule vuln h).2).
    by destruct (Heap.create_sarif_rule vuln h) as [o h']; simpl in *; subst.
  - intros res Hres.
    apply (returns_new_create_sarif_result vuln h res (Heap.create_sarif_result vuln h).2).
    by destruct (Heap.create_sarif_result vuln h) as [o h']; simpl in *; subst.
Qed.

(** X17: on the store the builders compute what they compute on trees.  Run
    on an object that stands for a vulnerability, each raises when the
    builder on trees raises, with the same exception, and otherwise returns
    an object that stands for the record the builder on trees returns. *)
Theorem builders_on_store_agree `{PyStr} `{HeapStr} `{!StrAgree}
    (h : heap) (vuln : hval) (v : value) :
  represents h vuln v →
  match (Heap.create_sarif_rule vuln h).1, create_sarif_rule v with
  | Done x, Ok rule => represents (Heap.create_sarif_rule vuln h).2 x rule
  | Raised e, Raise e' => e = e'
  | _, _ => False
  end
  ∧ match (Heap.create_sarif_result vuln h).1, create_sarif_result v with
    | Done x, Ok res => represents (Heap.create_sarif_result vuln h).2 x res
    | Raised e, Raise e' => e = e'
    | _, _ => False
    end.
Proof.
  intros Hvuln. split.
  - exact (proj2 (simulates_create_sarif_rule [] h vuln v (below_nil h) Hvuln)).
  - exact (proj2 (simulates_create_sarif_result [] h vuln v (below_nil h) Hvuln)).
Qed.

Lemma builders_on_store_agree_witness :
  match (@Heap.create_sarif_rule heap_str_of_constant (HRef 3) scenario_heap).1,
        @create_sarif_rule str_of_constant (VDict scenario_vuln) with
  | Done x, Ok rule =>
      represents
        (@Heap.create_sarif_rule heap_str_of_constant (HRef 3) scenario_heap).2
        x rule
  | Raised e, Raise e' => e = e'
  | _, _ => False
  end
  ∧ match (Heap.create_sarif_result (HRef 3) scenario_heap).1,
          create_sarif_result (VDict scenario_vuln) with
    | Done x, Ok res =>
        represents (Heap.create_sarif_result (HRef 3) scenario_heap).2 x res
    | Raised e, Raise e' => e = e'
    | _, _ => False
    end.
Proof.
  exact (@builders_on_store_agree
           str_of_constant heap_str_of_constant str_of_constant_agree
           scenario_heap (HRef 3) (VDict scenario_vuln)
           (reify_represents 10 scenario_heap (HRef 3) (VDict scenario_vuln)
              eq_refl)).
Defined.

(** X18: on the store the conversion computes what it computes on trees.
    Run on an object that stands for a report, it is never stuck: the loop
    makes one turn for each entry of the list and stops, the appends made
    through [sarif["runs"][0]...] reach the arrays of the returned document,
    and the run raises the exception of the conversion on trees or returns
    an object that stands for the document the conversion on trees
    returns. *)
Theorem conversion_on_store_agrees `{PyStr} `{HeapStr} `{!StrAgree}
    (h : heap) (audit_data : hval) (report : value) :
  represents h audit_data report →
  match (Heap.convert_audit_to_sarif audit_data h).1,
        convert_audit_to_sarif report with
  | Done x, Ok doc =>
      represents (Heap.convert_audit_to_sarif audit_data h).2 x doc
  | Raised e, Raise e' => e = e'
  | _, _ => False
  end.
Proof.
  intros Haudit.
  exact (proj2 (convert_audit_to_sarif_simulates h audit_data report Haudit)).
Qed.

Lemma conversion_on_store_agrees_witness :
  represents
    (@Heap.convert_audit_to_sarif heap_str_of_constant (HRef 6) scenario_heap).2
    (HRef 15) scenario_sarif.
Proof.
  exact (@conversion_on_store_agrees
           str_of_constant heap_str_of_constant str_of_constant_agree
           scenario_heap (HRef 6) scenario_report scenario_heap_represents).
Defined.

(** ** The input after a run, and what the document is made of *)




